(** * lazyComponents.tsx: lazily loaded bindings, the suspense wrapper and
    its error boundary

    The development follows the layout of [src/lazyComponents.tsx]:
    the loading placeholder, the fifteen [lazy] bindings, [withSuspense],
    the [ErrorBoundary] class, [preloadComponent] and the [LazyComponents]
    object.  JSX is embedded as a tree of elements; the parts of the host
    framework the file relies on ([lazy], [Suspense], the error-boundary
    life cycle, promise reactions) are given a small executable reading in
    the modules [Host] and [Renderer]. *)

From Stdlib Require Import ZArith Ascii String.
From stdpp Require Import base option list strings gmap fin_maps.

Open Scope string_scope.
Set Warnings "-register-all".

(** ** JavaScript values used by the file *)
Module Js.

(** An [Error] object, identified by its message. *)
Record Error := mkError { message : string }.

(** Completion of a call: it returns a value or throws. *)
Inductive Completion (A : Type) : Type :=
| Normal (a : A)
| Abrupt (e : Error).
Arguments Normal {A} a.
Arguments Abrupt {A} e.

(** What a component does when the framework calls it: it returns its
    output, suspends (throws a pending thenable) or throws an error. *)
Inductive Render (A : Type) : Type :=
| Rendered (a : A)
| Suspended
| Threw (e : Error).
Arguments Rendered {A} a.
Arguments Suspended {A}.
Arguments Threw {A} e.

(** [String.prototype.split] with a one-character separator and no
    limit: one piece more than there are separators, empty pieces kept. *)
Fixpoint split (sep : Ascii.ascii) (s : string) : list string :=
  match s with
  | EmptyString => [EmptyString]
  | String c rest =>
      if Ascii.eqb c sep then EmptyString :: split sep rest
      else match split sep rest with
           | piece :: pieces => String c piece :: pieces
           | [] => [String c EmptyString]
           end
  end.

(** [${x}] in a template literal, for [x] a string or [undefined]. *)
Definition interpolate (x : option string) : string :=
  match x with
  | Some s => s
  | None => "undefined"
  end.

(** A default in a parameter list or a destructuring pattern, [x = d]: it
    applies when the value is [undefined], here an omitted optional field. *)
Definition or_default {A : Type} (d : A) (x : option A) : A :=
  match x with
  | Some a => a
  | None => d
  end.

(** [{ ...src }] laid over the fields already written in [target]: the
    own fields of [src] are copied and win over earlier ones. *)
Definition object_spread {V : Type} (target src : gmap string V) : gmap string V :=
  src ∪ target.

End Js.
Import Js.

(** ** Elements *)

(** [{ hasError: boolean }], the state of the only class of the file, and
    [Partial<State>] as taken by [setState] and returned by
    [getDerivedStateFromError]. *)
Record ErrorBoundaryState := { hasError : bool }.
Record StatePatch := { patchHasError : option bool }.

(** [setState(patch)]: the fields present in the patch replace the old ones. *)
Definition setState (st : ErrorBoundaryState) (patch : StatePatch) : ErrorBoundaryState :=
  {| hasError := or_default (hasError st) (patchHasError patch) |}.

(** An event callback, as its effect on the state of the instance whose
    [render] created it. *)
Definition Handler : Type := ErrorBoundaryState -> ErrorBoundaryState.

(** ['sm' | 'md' | 'lg'] *)
Inductive Size := sm | md | lg.

(** [ReactNode]: the primitives a node can be, host elements, [Suspense],
    elements of function components (the component is called only when the
    element is rendered) and elements of a stateful class, given by the
    state its constructor sets, the patch of its static
    [getDerivedStateFromError] when it has one, and its [render] with the
    props already bound.  Numbers are the integer ones. *)
Inductive ReactNode : Type :=
| RNull
| RUndefined
| RBool (b : bool)
| RNum (n : Z)
| RStr (s : string)
| RHost (tag : string) (className : option string) (onClick : option Handler)
        (children : list ReactNode)
| RSuspense (fallback : ReactNode) (children : ReactNode)
| RFunction (P : Type) (component : P -> Render ReactNode) (props : P)
| RClass (initial : ErrorBoundaryState) (derive : option StatePatch)
         (render : ErrorBoundaryState -> ReactNode).
Arguments RFunction {P} component props.

(** [ComponentType<T>] *)
Definition ComponentType (T : Type) : Type := T -> Render ReactNode.

(** JSX element creation for a function component, [<Component {...config} />].
    The [key] attribute belongs to the framework: it is taken out of the
    props the component is called with.  (Which further attributes the
    framework keeps for itself, such as [ref], depends on its version and on
    the JSX transform; they are passed on here.) *)
Definition jsx {V : Type} (Component : ComponentType (gmap string V))
    (config : gmap string V) : ReactNode :=
  RFunction Component (delete "key" config).

(** JavaScript truthiness of a node: [null], [undefined], [false], [0] and
    the empty string are falsy, every object is truthy. *)
Definition truthy (n : ReactNode) : bool :=
  match n with
  | RNull | RUndefined => false
  | RBool b => b
  | RNum n => negb (n =? 0)%Z
  | RStr s => negb (String.eqb s "")
  | _ => true
  end.

(** [a || b] *)
Definition js_or (a b : ReactNode) : ReactNode := if truthy a then a else b.

(** ** The loading placeholder (lines 8-20) *)

Record LoadingProps := { size : option Size }.

Definition size_key (s : Size) : string :=
  match s with sm => "sm" | md => "md" | lg => "lg" end.

Definition sizeClasses : gmap string string :=
  <["sm" := "h-5 w-5 min-h-[100px]"]>
  (<["md" := "h-8 w-8 min-h-[200px]"]>
  (<["lg" := "h-12 w-12 min-h-[300px]"]> ∅)).

(** Reading a property of [undefined] is a [TypeError]. *)
Definition undefined_split : Error :=
  mkError "Cannot read properties of undefined (reading 'split')".

Definition DefaultLoadingFallback : ComponentType LoadingProps := fun props =>
  let size := or_default md (size props) in
  match sizeClasses !! size_key size with
  | None => Threw undefined_split
  | Some classes =>
      let tokens := split " "%char classes in
      Rendered
        (RHost "div" (Some ("flex items-center justify-center " ++ classes)) None
           [ RHost "div"
               (Some ("animate-spin rounded-full " ++ interpolate (tokens !! 0%nat)
                        ++ " " ++ interpolate (tokens !! 1%nat)
                        ++ " border-b-2 border-white"))
               None [] ])
  end.

(** ** The error boundary (lines 124-161) *)

Record ErrorBoundaryProps := { children : ReactNode }.

Module ErrorBoundary.

(** [constructor(props)]: [this.state = { hasError: false }]. *)
Definition constructor (props : ErrorBoundaryProps) : ErrorBoundaryState :=
  {| hasError := false |}.

(** [static getDerivedStateFromError()] *)
Definition getDerivedStateFromError : StatePatch :=
  {| patchHasError := Some true |}.

(** [componentDidCatch(error, errorInfo)]: one more line on the console. *)
Definition componentDidCatch (error : Error) (console : list (string * Error))
  : list (string * Error) :=
  (console ++ [("Lazy component error:", error)])%list.

(** The callback of the Retry button: [() => this.setState({ hasError: false })]. *)
Definition retry : Handler :=
  fun st => setState st {| patchHasError := Some false |}.

(** [render()] *)
Definition render (props : ErrorBoundaryProps) (state : ErrorBoundaryState) : ReactNode :=
  if hasError state then
    RHost "div" (Some "flex items-center justify-center min-h-[200px] text-red-400") None
      [ RHost "div" (Some "text-center") None
          [ RHost "div" (Some "text-2xl mb-2") None [RStr "⚠️"];
            RHost "p" None None [RStr "Something went wrong loading this component"];
            RHost "button"
              (Some "mt-2 px-3 py-1 bg-red-600 hover:bg-red-700 rounded text-white text-sm")
              (Some retry)
              [RStr "Retry"] ] ]
  else children props.

(** [<ErrorBoundary>{children}</ErrorBoundary>] *)
Definition element (props : ErrorBoundaryProps) : ReactNode :=
  RClass (constructor props) (Some getDerivedStateFromError) (render props).

End ErrorBoundary.

(** ** The higher-order component (lines 88-121) *)

(** The options object; an omitted field reads as [undefined], which for
    [fallback] is itself a node. *)
Record Options := {
  fallback : ReactNode;
  errorBoundary : option bool;
  loadingSize : option Size
}.

(** [{}], the default of the second parameter. *)
Definition no_options : Options :=
  {| fallback := RUndefined; errorBoundary := None; loadingSize := None |}.

(** [const loadingFallback = fallback || <DefaultLoadingFallback size={loadingSize} />] *)
Definition loadingFallback (options : Options) : ReactNode :=
  let loadingSize := or_default md (loadingSize options) in
  js_or (fallback options)
        (RFunction DefaultLoadingFallback {| size := Some loadingSize |}).

Definition withSuspense {V : Type} (Component : ComponentType (gmap string V))
    (options : Options) : gmap string V -> ReactNode :=
  let errorBoundary := or_default false (errorBoundary options) in
  fun props =>
    let loadingFallback := loadingFallback options in
    let SuspenseWrapper :=
      RSuspense loadingFallback (jsx Component (object_spread ∅ props)) in
    if errorBoundary then ErrorBoundary.element {| children := SuspenseWrapper |}
    else SuspenseWrapper.

(** ** Rendering

    The framework's side of the contract, for a first render of a tree:
    a host element renders its children in order; [Suspense] shows its
    fallback when something below it suspends and lets errors through; a
    function component is called with its props; a class instance starts
    from the state of its constructor and, when something below it throws
    and the class has [getDerivedStateFromError], takes the returned patch
    and renders again, an error of that second render going further up. *)
Module Renderer.

(** What ends up on the page. *)
Inductive Dom : Type :=
| Text (s : string)
| Number (n : Z)
| Element (tag : string) (className : option string) (onClick : option Handler)
          (children : list Dom).

Fixpoint mount (node : ReactNode) : Render (list Dom) :=
  match node with
  | RNull | RUndefined | RBool _ => Rendered []
  | RNum n => Rendered [Number n]
  | RStr s => Rendered [Text s]
  | RHost tag className onClick children =>
      let fix mount_all (nodes : list ReactNode) : Render (list Dom) :=
        match nodes with
        | [] => Rendered []
        | first :: rest =>
            match mount first with
            | Rendered d =>
                match mount_all rest with
                | Rendered ds => Rendered (d ++ ds)%list
                | Suspended => Suspended
                | Threw e => Threw e
                end
            | Suspended => Suspended
            | Threw e => Threw e
            end
        end in
      match mount_all children with
      | Rendered ds => Rendered [Element tag className onClick ds]
      | Suspended => Suspended
      | Threw e => Threw e
      end
  | RSuspense fallback children =>
      match mount children with
      | Suspended => mount fallback
      | done => done
      end
  | RFunction component props =>
      match component props with
      | Rendered output => mount output
      | Suspended => Suspended
      | Threw e => Threw e
      end
  | RClass initial derive render =>
      match mount (render initial) with
      | Threw e =>
          match derive with
          | Some patch => mount (render (setState initial patch))
          | None => Threw e
          end
      | done => done
      end
  end.

(** The callback of the first [button] with the given label, searching the
    element tree in document order. *)
Fixpoint button_handler (label : string) (node : ReactNode) : option Handler :=
  match node with
  | RHost tag _ onClick children =>
      match children with
      | [RStr text] =>
          if String.eqb tag "button" && String.eqb text label then onClick else None
      | _ =>
          (fix first_of (nodes : list ReactNode) : option Handler :=
             match nodes with
             | [] => None
             | n :: rest =>
                 match button_handler label n with
                 | Some h => Some h
                 | None => first_of rest
                 end
             end) children
      end
  | _ => None
  end.

End Renderer.

(** ** The host: dynamic import, promises, [lazy]

    A promise is described by the way it ends.  Callbacks attached to a
    promise run later, when the host drains its reactions; nothing attached
    to a promise runs inside the call that attached it. *)
Module Host.

Inductive Settlement (A : Type) : Type :=
| Fulfilled (value : A)
| Rejected (reason : Error)
| Unsettled.
Arguments Fulfilled {A} value.
Arguments Rejected {A} reason.
Arguments Unsettled {A}.

(** [Record<string, any>] props, values being nodes or primitives. *)
Abbreviation AnyProps := (gmap string ReactNode).

(** [{ default: ComponentType<any> }] *)
Record ModuleNamespace := { default : ComponentType AnyProps }.

Abbreviation Promise := (Settlement ModuleNamespace).

(** The module loader: how the fetch of each specifier ends, and the
    specifiers requested so far through [import()], oldest first. *)
Record Loader := {
  registry : string -> Promise;
  requested : list string
}.

(** [() => Promise<{ default: ComponentType<any> }>]; the call may also throw. *)
Definition ImportFn : Type := unit -> Loader -> Completion Promise * Loader.

(** [import(specifier)]: always returns a promise. *)
Definition dynamic_import (specifier : string) : Loader -> Completion Promise * Loader :=
  fun l =>
    (Normal (registry l specifier),
     {| registry := registry l; requested := requested l ++ [specifier] |}).

(** The payload of a [lazy] object: [_status] together with [_result]. *)
Inductive LazyPayload : Type :=
| Uninitialized (ctor : ImportFn)
| Pending (thenable : Promise)
| Resolved (moduleObject : ModuleNamespace)
| Failed (error : Error).

Abbreviation LazyRef := nat.

(** Functions of the host that the file passes around as values. *)
Inductive Builtin := console_error.

(** A callback waiting for a promise to settle: the [onRejected] of a
    [.catch], or the pair of callbacks [lazy] attaches to its thenable. *)
Inductive Reaction : Type :=
| OnRejected (p : Promise) (callback : Builtin)
| OnLazy (p : Promise) (target : LazyRef).

Record Realm := {
  loader : Loader;
  lazies : list LazyPayload;
  reactions : list Reaction;
  console : list Error
}.

(** State passing over the realm. *)
Definition M (A : Type) : Type := Realm -> A * Realm.
Definition ret {A} (a : A) : M A := fun r => (a, r).
Definition bind {A B} (c : M A) (k : A -> M B) : M B :=
  fun r => let (a, r') := c r in k a r'.
Notation "'let*' x := c 'in' k" := (bind c (fun x => k))
  (at level 10, x name, c at level 100, k at level 200).

(** Calling an import function inside the realm. *)
Definition call (f : ImportFn) : M (Completion Promise) :=
  fun r =>
    let (c, l) := f tt (loader r) in
    (c, {| loader := l; lazies := lazies r; reactions := reactions r;
           console := console r |}).

Definition attach (reaction : Reaction) : M unit :=
  fun r =>
    (tt, {| loader := loader r; lazies := lazies r;
            reactions := reactions r ++ [reaction]; console := console r |}).

(** [lazy(ctor)]: a new object holding the constructor, which is not called. *)
Definition lazy (ctor : ImportFn) : M LazyRef :=
  fun r =>
    (length (lazies r),
     {| loader := loader r; lazies := lazies r ++ [Uninitialized ctor];
        reactions := reactions r; console := console r |}).

Definition set_payload (ref : LazyRef) (p : LazyPayload) : M unit :=
  fun r =>
    (tt, {| loader := loader r; lazies := <[ref := p]> (lazies r);
            reactions := reactions r; console := console r |}).

(** What the framework does with a [lazy] object when an element of it is
    rendered: the constructor is called if it never was, the object waits
    for the thenable, and the outcome is the loaded component, a
    suspension, or the error. *)
Definition lazyInitializer (ref : LazyRef) : M (Render (ComponentType AnyProps)) :=
  fun r =>
    match lazies r !! ref with
    | None => (Threw (mkError "Element type is invalid"), r)
    | Some (Uninitialized ctor) =>
        (let* c := call ctor in
         match c with
         | Abrupt e => ret (Threw e)
         | Normal thenable =>
             let* _ := attach (OnLazy thenable ref) in
             let* _ := set_payload ref (Pending thenable) in
             ret Suspended
         end) r
    | Some (Pending _) => (Suspended, r)
    | Some (Resolved moduleObject) => (Rendered (default moduleObject), r)
    | Some (Failed e) => (Threw e, r)
    end.

(** One reaction, once its promise has settled. *)
Definition react (reaction : Reaction) (r : Realm) : Realm :=
  match reaction with
  | OnRejected (Rejected reason) console_error =>
      {| loader := loader r; lazies := lazies r; reactions := reactions r;
         console := console r ++ [reason] |}
  | OnRejected _ _ => r
  | OnLazy p target =>
      match lazies r !! target, p with
      | Some (Uninitialized _ | Pending _), Fulfilled m =>
          {| loader := loader r; lazies := <[target := Resolved m]> (lazies r);
             reactions := reactions r; console := console r |}
      | Some (Uninitialized _ | Pending _), Rejected e =>
          {| loader := loader r; lazies := <[target := Failed e]> (lazies r);
             reactions := reactions r; console := console r |}
      | _, _ => r
      end
  end.

Definition settled (reaction : Reaction) : bool :=
  match reaction with
  | OnRejected Unsettled _ | OnLazy Unsettled _ => false
  | _ => true
  end.

(** The reactions whose promise has settled, in the order they were attached. *)
Definition due (r : Realm) : list Reaction :=
  filter (fun x => settled x = true) (reactions r).

(** The host runs a callback when its promise settles, so the callbacks of
    different promises run in the order the promises settle, not in the
    order they were attached.  [order] is the order in which the reactions
    that are due come to run, a rearrangement of [due r]; the reactions of
    unsettled promises are kept. *)
Definition run_in_order (order : list Reaction) (r : Realm) : Realm :=
  foldl (fun acc reaction => react reaction acc)
        {| loader := loader r; lazies := lazies r;
           reactions := filter (fun x => settled x = false) (reactions r);
           console := console r |}
        order.

(** The run in which the promises settle in the order their callbacks were
    attached. *)
Definition drain (r : Realm) : Realm := run_in_order (due r) r.

(** What a run of the given reactions passes to [console.error]. *)
Definition reported (order : list Reaction) : list Error :=
  omap (fun x => match x with
                 | OnRejected (Rejected reason) console_error => Some reason
                 | _ => None
                 end) order.

End Host.
Import Host.

(** ** The lazy bindings (lines 23-85) *)

Inductive Export : Type :=
| LazyExport (ref : LazyRef)
| FunctionExport
| ObjectExport (fields : gmap string LazyRef).

(** The module body, top to bottom, and its export table in source order.
    [withSuspense] and [preloadComponent] are the functions of this file. *)
Definition module_body : M (list (string * Export)) :=
  let* LazyProfileDashboard :=
    lazy (fun _ => dynamic_import "./components/dashboard/ProfileDashboard") in
  let* LazyPersonalDetails :=
    lazy (fun _ => dynamic_import "./components/dashboard/PersonalDetails") in
  let* LazyTransaction :=
    lazy (fun _ => dynamic_import "./components/dashboard/Transaction") in
  let* LazyFilters :=
    lazy (fun _ => dynamic_import "./components/marketplace/Filters") in
  let* LazyCoinCard :=
    lazy (fun _ => dynamic_import "./components/marketplace/CoinCard") in
  let* LazyAssetTable :=
    lazy (fun _ => dynamic_import "./components/marketplace/AssetTable") in
  let* LazySummaryHeader :=
    lazy (fun _ => dynamic_import "./components/marketplace/SummaryHeader") in
  let* LazyTradeInterface :=
    lazy (fun _ => dynamic_import "./components/marketplace/TradeInterface") in
  let* LazySmallLoanCard :=
    lazy (fun _ => dynamic_import "./components/card/SmallLoanCard") in
  let* LazyBigLoanCard :=
    lazy (fun _ => dynamic_import "./components/card/BigLoanCard") in
  let* LazyLoanRequestForm :=
    lazy (fun _ => dynamic_import "./components/card/LoanRequestForm") in
  let* LazyLoanEligibilityMeter :=
    lazy (fun _ => dynamic_import "./components/card/LoanEligibilityMeter") in
  let* LazyWalletConnectionModal :=
    lazy (fun _ => dynamic_import "./components/wallet/WalletConnectionModal") in
  let* LazyFaucetModule :=
    lazy (fun _ => dynamic_import "./components/landing/FaucetModule") in
  let* LazyBuiltOnAptos :=
    lazy (fun _ => dynamic_import "./components/landing/BuiltOnAptos") in
  let LazyComponents : gmap string LazyRef :=
    <["ProfileDashboard" := LazyProfileDashboard]>
    (<["PersonalDetails" := LazyPersonalDetails]>
    (<["Transaction" := LazyTransaction]>
    (<["Filters" := LazyFilters]>
    (<["CoinCard" := LazyCoinCard]>
    (<["AssetTable" := LazyAssetTable]>
    (<["SummaryHeader" := LazySummaryHeader]>
    (<["TradeInterface" := LazyTradeInterface]>
    (<["SmallLoanCard" := LazySmallLoanCard]>
    (<["BigLoanCard" := LazyBigLoanCard]>
    (<["LoanRequestForm" := LazyLoanRequestForm]>
    (<["LoanEligibilityMeter" := LazyLoanEligibilityMeter]>
    (<["WalletConnectionModal" := LazyWalletConnectionModal]>
    (<["FaucetModule" := LazyFaucetModule]>
    (<["BuiltOnAptos" := LazyBuiltOnAptos]> ∅)))))))))))))) in
  ret [ ("LazyProfileDashboard", LazyExport LazyProfileDashboard);
        ("LazyPersonalDetails", LazyExport LazyPersonalDetails);
        ("LazyTransaction", LazyExport LazyTransaction);
        ("LazyFilters", LazyExport LazyFilters);
        ("LazyCoinCard", LazyExport LazyCoinCard);
        ("LazyAssetTable", LazyExport LazyAssetTable);
        ("LazySummaryHeader", LazyExport LazySummaryHeader);
        ("LazyTradeInterface", LazyExport LazyTradeInterface);
        ("LazySmallLoanCard", LazyExport LazySmallLoanCard);
        ("LazyBigLoanCard", LazyExport LazyBigLoanCard);
        ("LazyLoanRequestForm", LazyExport LazyLoanRequestForm);
        ("LazyLoanEligibilityMeter", LazyExport LazyLoanEligibilityMeter);
        ("LazyWalletConnectionModal", LazyExport LazyWalletConnectionModal);
        ("LazyFaucetModule", LazyExport LazyFaucetModule);
        ("LazyBuiltOnAptos", LazyExport LazyBuiltOnAptos);
        ("withSuspense", FunctionExport);
        ("preloadComponent", FunctionExport);
        ("LazyComponents", ObjectExport LazyComponents) ].

(** Lookup of an export by name. *)
Fixpoint export_named (name : string) (exports : list (string * Export)) : option Export :=
  match exports with
  | [] => None
  | (n, e) :: rest => if String.eqb n name then Some e else export_named name rest
  end.

(** ** Preloading (lines 164-166) *)

(** [importFn().catch(console.error)]; the function returns nothing. *)
Definition preloadComponent (importFn : ImportFn) : M (Completion unit) :=
  let* called := call importFn in
  match called with
  | Abrupt e => ret (Abrupt e)
  | Normal promise =>
      let* _ := attach (OnRejected promise console_error) in
      ret (Normal tt)
  end.

(** A realm in which nothing has happened yet. *)
Definition fresh (registry : string -> Promise) : Realm :=
  {| loader := {| registry := registry; requested := [] |};
     lazies := []; reactions := []; console := [] |}.

Import Renderer.

(** ** Vocabulary of the statements *)

(** The fallback element of lines 144-155: the warning sign, the message
    and the Retry button with its callback. *)
Definition error_ui : ReactNode :=
  RHost "div" (Some "flex items-center justify-center min-h-[200px] text-red-400") None
    [ RHost "div" (Some "text-center") None
        [ RHost "div" (Some "text-2xl mb-2") None [RStr "⚠️"];
          RHost "p" None None [RStr "Something went wrong loading this component"];
          RHost "button"
            (Some "mt-2 px-3 py-1 bg-red-600 hover:bg-red-700 rounded text-white text-sm")
            (Some ErrorBoundary.retry)
            [RStr "Retry"] ] ].

(** What the fallback element renders to. *)
Definition error_page : list Dom :=
  [ Element "div" (Some "flex items-center justify-center min-h-[200px] text-red-400") None
      [ Element "div" (Some "text-center") None
          [ Element "div" (Some "text-2xl mb-2") None [Text "⚠️"];
            Element "p" None None [Text "Something went wrong loading this component"];
            Element "button"
              (Some "mt-2 px-3 py-1 bg-red-600 hover:bg-red-700 rounded text-white text-sm")
              (Some ErrorBoundary.retry)
              [Text "Retry"] ] ] ].

(** A child that throws when it is rendered. *)
Definition failing_child : ReactNode :=
  RFunction (fun _ : unit => Threw (mkError "render failed")) tt.

(** A [Suspense] element with the given fallback around the element of the
    component. *)
Definition suspense_around {P : Type} (Component : ComponentType P) (props : P)
    (fallback : ReactNode) : ReactNode :=
  RSuspense fallback (RFunction Component props).

(** The result is that [Suspense] element, alone or as the only child of an
    [ErrorBoundary]. *)
Definition wraps {P : Type} (Component : ComponentType P) (props : P)
    (fallback : ReactNode) (result : ReactNode) : Prop :=
  result = suspense_around Component props fallback
  ∨ result = ErrorBoundary.element {| children := suspense_around Component props fallback |}.

(** [<DefaultLoadingFallback size={loadingSize} />] with the default of
    [loadingSize] applied. *)
Definition default_placeholder (options : Options) : ReactNode :=
  RFunction DefaultLoadingFallback {| size := Some (or_default md (loadingSize options)) |}.

(** A fallback was passed: the field is not [undefined]. *)
Definition provided (node : ReactNode) : bool :=
  match node with
  | RUndefined => false
  | _ => true
  end.

(** The fallback of the [Suspense] element when every provided fallback is
    kept. *)
Definition fallback_if_provided (options : Options) : ReactNode :=
  if provided (fallback options) then fallback options else default_placeholder options.

(** The fallback of the [Suspense] element when the truthy ones are kept. *)
Definition fallback_if_truthy (options : Options) : ReactNode :=
  if truthy (fallback options) then fallback options else default_placeholder options.

(** The wrapper shows the placeholder while the component suspends and the
    error boundary's fallback when it throws. *)
Definition placeholder_then_error_ui {V : Type} (Component : ComponentType (gmap string V))
    (options : Options) (props : gmap string V) : Prop :=
  (Component props = Suspended →
     mount (withSuspense Component options props) = mount (loadingFallback options))
  ∧ (∀ e, Component props = Threw e →
       mount (withSuspense Component options props) = mount error_ui).

(** An element of a class with [getDerivedStateFromError], at the root or
    below host elements and [Suspense] children. *)
Fixpoint contains_error_boundary (node : ReactNode) : bool :=
  match node with
  | RClass _ (Some _) _ => true
  | RHost _ _ _ children =>
      (fix any (nodes : list ReactNode) : bool :=
         match nodes with
         | [] => false
         | n :: rest => contains_error_boundary n || any rest
         end) children
  | RSuspense _ children => contains_error_boundary children
  | _ => false
  end.

(** A component that always throws, one that always suspends, one that
    renders a text. *)
Definition always_throws : ComponentType (gmap string Z) :=
  fun _ => Threw (mkError "render failed").
Definition always_suspends : ComponentType (gmap string Z) :=
  fun _ => Suspended.
Definition greeting : ComponentType (gmap string Z) :=
  fun _ => Rendered (RStr "hello").

(** A fallback of [0]. *)
Definition zero_fallback : Options :=
  {| fallback := RNum 0; errorBoundary := None; loadingSize := None |}.

(** [{ errorBoundary: true }] *)
Definition with_boundary : Options :=
  {| fallback := RUndefined; errorBoundary := Some true; loadingSize := None |}.

(** Every field of the wrapper's props reaches the element of the component. *)
Definition forwards_every_field {V : Type} (Component : ComponentType (gmap string V))
    (options : Options) (props : gmap string V) : Prop :=
  ∃ forwarded : gmap string V,
    (∀ field, forwarded !! field = props !! field)
    ∧ wraps Component forwarded (loadingFallback options)
            (withSuspense Component options props).

(** Attribute names that element creation may keep for itself, depending on
    the framework's version and on the JSX transform; [key] always is one. *)
Definition reserved_attributes : list string := ["key"; "ref"; "__self"; "__source"].

(** A component that shows the [key] field of the props it is called with. *)
Definition shows_key : ComponentType (gmap string Z) :=
  fun props =>
    Rendered (match props !! "key" with
              | Some k => RNum k
              | None => RStr "no key"
              end).

(** [{ key: 1, id: 7 }] *)
Definition keyed_props : gmap string Z := <["key" := 1%Z]> {[ "id" := 7%Z ]}.

(** The fallback attribute of a [Suspense] element. *)
Definition suspense_fallback (node : ReactNode) : option ReactNode :=
  match node with
  | RSuspense fallback _ => Some fallback
  | _ => None
  end.

(** The fifteen bindings of lines 23-85: exported name and specifier of the
    import in its thunk, in source order. *)
Definition lazy_bindings : list (string * string) :=
  [ ("LazyProfileDashboard", "./components/dashboard/ProfileDashboard");
    ("LazyPersonalDetails", "./components/dashboard/PersonalDetails");
    ("LazyTransaction", "./components/dashboard/Transaction");
    ("LazyFilters", "./components/marketplace/Filters");
    ("LazyCoinCard", "./components/marketplace/CoinCard");
    ("LazyAssetTable", "./components/marketplace/AssetTable");
    ("LazySummaryHeader", "./components/marketplace/SummaryHeader");
    ("LazyTradeInterface", "./components/marketplace/TradeInterface");
    ("LazySmallLoanCard", "./components/card/SmallLoanCard");
    ("LazyBigLoanCard", "./components/card/BigLoanCard");
    ("LazyLoanRequestForm", "./components/card/LoanRequestForm");
    ("LazyLoanEligibilityMeter", "./components/card/LoanEligibilityMeter");
    ("LazyWalletConnectionModal", "./components/wallet/WalletConnectionModal");
    ("LazyFaucetModule", "./components/landing/FaucetModule");
    ("LazyBuiltOnAptos", "./components/landing/BuiltOnAptos") ].

(** The fifteen component names. *)
Definition component_names : list string :=
  [ "ProfileDashboard"; "PersonalDetails"; "Transaction"; "Filters"; "CoinCard";
    "AssetTable"; "SummaryHeader"; "TradeInterface"; "SmallLoanCard"; "BigLoanCard";
    "LoanRequestForm"; "LoanEligibilityMeter"; "WalletConnectionModal";
    "FaucetModule"; "BuiltOnAptos" ].

(** The export table when the first [lazy] object gets reference [n]. *)
Definition exports_from (n : nat) : list (string * Export) :=
  (imap (fun i binding => (fst binding, LazyExport (n + i))) lazy_bindings
   ++ [ ("withSuspense", FunctionExport);
        ("preloadComponent", FunctionExport);
        ("LazyComponents",
         ObjectExport (list_to_map (imap (fun i name => (name, n + i)%nat) component_names))) ])%list.

(** The payloads the module body allocates. *)
Definition fresh_payloads : list LazyPayload :=
  (fun binding => Uninitialized (fun _ => dynamic_import (snd binding))) <$> lazy_bindings.

(** The object behind [ref] still holds its thunk, and the thunk is the
    import of [specifier]. *)
Definition deferred (specifier : string) (ref : LazyRef) (r : Realm) : Prop :=
  ∃ ctor, lazies r !! ref = Some (Uninitialized ctor)
          ∧ ∀ l, ctor tt l = dynamic_import specifier l.

(** Every export is one of the [lazy] bindings. *)
Definition every_export_defers_an_import (exports : list (string * Export)) : Prop :=
  ∀ name e, (name, e) ∈ exports → ∃ ref, e = LazyExport ref.

(** No chunk is ever found: every import stays pending. *)
Definition offline : string -> Promise := fun _ => Unsettled.

(** An import function that throws instead of returning a promise. *)
Definition throwing_import : ImportFn :=
  fun _ l => (Abrupt (mkError "loader is not a function"), l).

(** An import function whose promise rejects. *)
Definition rejecting_import : ImportFn :=
  fun _ l => (Normal (Rejected (mkError "chunk load failed")), l).

(** The call of [preloadComponent] returns normally. *)
Definition returns_normally (importFn : ImportFn) (r : Realm) : Prop :=
  fst (preloadComponent importFn r) = Normal tt.

(** ** A boundary over time

    What happens to a mounted boundary: something below it throws while
    rendering, upon which the framework merges the patch of
    [getDerivedStateFromError] and calls [componentDidCatch]; or the user
    clicks the Retry button of the fallback, which is there to click only
    while the fallback is shown. *)
Inductive BoundaryEvent : Type :=
| ChildThrew (error : Error)
| RetryClicked.

(** The instance: its state and what it has written to the console. *)
Record Instance := {
  current : ErrorBoundaryState;
  logged : list (string * Error)
}.

Definition handle (props : ErrorBoundaryProps) (i : Instance) (ev : BoundaryEvent)
  : Instance :=
  match ev with
  | ChildThrew error =>
      {| current := setState (current i) ErrorBoundary.getDerivedStateFromError;
         logged := ErrorBoundary.componentDidCatch error (logged i) |}
  | RetryClicked =>
      if hasError (current i) then
        match button_handler "Retry" (ErrorBoundary.render props (current i)) with
        | Some onClick => {| current := onClick (current i); logged := logged i |}
        | None => i
        end
      else i
  end.

(** The instance after its constructor, and after a sequence of events. *)
Definition mounted (props : ErrorBoundaryProps) : Instance :=
  {| current := ErrorBoundary.constructor props; logged := [] |}.

Definition after (props : ErrorBoundaryProps) (events : list BoundaryEvent) : Instance :=
  foldl (handle props) (mounted props) events.

(** The errors of the throws among the events, in order. *)
Definition thrown (events : list BoundaryEvent) : list Error :=
  omap (fun ev => match ev with ChildThrew e => Some e | RetryClicked => None end) events.

(** A boundary rendered again from the state it is in. *)
Definition rerender (props : ErrorBoundaryProps) (st : ErrorBoundaryState)
  : Render (list Dom) :=
  mount (RClass st (Some ErrorBoundary.getDerivedStateFromError)
                (ErrorBoundary.render props)).

(** ** Sequences of calls *)

(** [preloadComponent(() => import(s))] for each specifier in turn. *)
Definition preload_all (specifiers : list string) (r : Realm) : Realm :=
  foldl (fun acc s => snd (preloadComponent (fun _ => dynamic_import s) acc)) r specifiers.

(** The reasons of the rejected imports among the specifiers, in order. *)
Definition rejections (registry : string -> Promise) (specifiers : list string)
  : list Error :=
  omap (fun s => match registry s with Rejected reason => Some reason | _ => None end)
       specifiers.

(** No callback of [lazy] is waiting on the object [ref]. *)
Definition untargeted (ref : LazyRef) (r : Realm) : Prop :=
  ∀ p, OnLazy p ref ∉ reactions r.

(** The component an element of the [lazy] object [ref] stands for, as it
    behaves in the realm [r]; [as_any] reads the props of the element as the
    [any]-typed props the loaded component takes. *)
Definition lazy_component {P : Type} (as_any : P -> AnyProps) (ref : LazyRef) (r : Realm)
  : ComponentType P :=
  fun props =>
    match fst (lazyInitializer ref r) with
    | Rendered component => component (as_any props)
    | Suspended => Suspended
    | Threw e => Threw e
    end.

(** Props whose values are numbers. *)
Definition number_props (props : gmap string Z) : AnyProps := RNum <$> props.

(** Every import fails, with the specifier as the message. *)
Definition named_failures : string -> Promise := fun s => Rejected (mkError s).

(** Two chunk outcomes used below. *)
Definition broken_chunk : string -> Promise :=
  fun _ => Rejected (mkError "chunk load failed").
Definition text_module : ModuleNamespace :=
  {| default := fun _ => Rendered (RStr "loaded") |}.
Definition served_chunk : string -> Promise := fun _ => Fulfilled text_module.

(** * Properties *)

(** ** Strings and objects *)

Lemma split_nonempty sep s : split sep s ≠ [].
Proof.
  destruct s as [|c rest]; simpl; [done|].
  destruct (Ascii.eqb c sep); [done|].
  by destruct (split sep rest).
Qed.

(** One piece more than there are separators. *)
Lemma split_length sep s :
  length (split sep s)
  = S (length (filter (fun c => c = sep) (list_ascii_of_string s))).
Proof.
  induction s as [|c rest IH]; simpl; [done|].
  rewrite filter_cons.
  destruct (Ascii.eqb_spec c sep) as [->|Hne].
  - rewrite decide_True by done. simpl. by rewrite IH.
  - rewrite decide_False by done.
    destruct (split sep rest) eqn:E; simpl in *; [by destruct (split_nonempty sep rest)|].
    done.
Qed.

Lemma object_spread_empty {V} (props : gmap string V) :
  object_spread ∅ props = props.
Proof.
  unfold object_spread. apply map_eq; intros k.
  rewrite lookup_union, lookup_empty. by destruct (props !! k).
Qed.

Lemma js_or_truthy a b : truthy a = true → js_or a b = a.
Proof. unfold js_or. by intros ->. Qed.

Lemma js_or_falsy a b : truthy a = false → js_or a b = b.
Proof. unfold js_or. by intros ->. Qed.

(** ** The loading placeholder *)

Example DefaultLoadingFallback_md :
  DefaultLoadingFallback {| size := None |}
  = Rendered
      (RHost "div" (Some "flex items-center justify-center h-8 w-8 min-h-[200px]") None
         [RHost "div" (Some "animate-spin rounded-full h-8 w-8 border-b-2 border-white")
            None []]).
Proof. reflexivity. Qed.

Example DefaultLoadingFallback_lg :
  DefaultLoadingFallback {| size := Some lg |}
  = Rendered
      (RHost "div" (Some "flex items-center justify-center h-12 w-12 min-h-[300px]") None
         [RHost "div" (Some "animate-spin rounded-full h-12 w-12 border-b-2 border-white")
            None []]).
Proof. reflexivity. Qed.

(** C8: for each of the three sizes, and for an omitted size (read as
    ['md']), the lookup [sizeClasses[size]] is defined, its split at the
    spaces has at least two pieces, so that indices 0 and 1 are defined,
    and [DefaultLoadingFallback] returns an element instead of throwing. *)
Theorem DefaultLoadingFallback_total (props : LoadingProps) :
  ∃ classes first second more element,
    sizeClasses !! size_key (or_default md (size props)) = Some classes
    ∧ split " "%char classes = first :: second :: more
    ∧ split " "%char classes !! 0%nat = Some first
    ∧ split " "%char classes !! 1%nat = Some second
    ∧ (2 ≤ length (split " "%char classes))%nat
    ∧ DefaultLoadingFallback props = Rendered element.
Proof.
  destruct props as [[[]|]]; simpl;
    (do 5 eexists; split; [reflexivity|]);
    (split; [reflexivity|]); simpl; repeat split; lia.
Qed.

(** ** The error boundary *)

Lemma setState_derived st :
  setState st ErrorBoundary.getDerivedStateFromError = {| hasError := true |}.
Proof. reflexivity. Qed.

Lemma render_error_state props st :
  hasError st = true → ErrorBoundary.render props st = error_ui.
Proof. unfold ErrorBoundary.render, error_ui. simpl. by intros ->. Qed.

Lemma render_ok_state props st :
  hasError st = false → ErrorBoundary.render props st = children props.
Proof. unfold ErrorBoundary.render. by intros ->. Qed.

Lemma mount_error_ui : ∃ dom, mount error_ui = Rendered dom.
Proof. eexists. reflexivity. Qed.

(** First render of a boundary: the children when they render or suspend,
    the error state's element when they throw. *)
Lemma mount_boundary props :
  mount (ErrorBoundary.element props)
  = match mount (children props) with
    | Threw _ => mount error_ui
    | done => done
    end.
Proof.
  unfold ErrorBoundary.element. cbn [mount].
  rewrite (render_ok_state props (ErrorBoundary.constructor props)) by done.
  by destruct (mount (children props)).
Qed.

(** C4: whatever the state was, the patch of [getDerivedStateFromError]
    sets [hasError] to true; in every state with [hasError] true, [render]
    returns the fallback element (the warning sign, the message and the
    Retry button), the same for all children, and so not the children
    unless they are that very element; and when the children throw while
    rendering, the boundary renders the fallback to the page instead of
    passing the error on. *)
Theorem ErrorBoundary_intercepts (props : ErrorBoundaryProps)
    (before st : ErrorBoundaryState) :
  hasError st = true →
  hasError (setState before ErrorBoundary.getDerivedStateFromError) = true
  ∧ ErrorBoundary.render props st = error_ui
  ∧ (∀ other, ErrorBoundary.render other st = ErrorBoundary.render props st)
  ∧ (children props ≠ error_ui → ErrorBoundary.render props st ≠ children props)
  ∧ mount error_ui = Rendered error_page
  ∧ (∀ e, mount (children props) = Threw e →
       mount (ErrorBoundary.element props) = Rendered error_page).
Proof.
  intros Herr. split; [done|]. split; [by apply render_error_state|].
  split; [intros other; by rewrite !render_error_state|].
  split; [intros Hother; by rewrite render_error_state|].
  split; [reflexivity|].
  intros e Hthrow. by rewrite mount_boundary, Hthrow.
Qed.

Lemma ErrorBoundary_intercepts_witness :
  hasError {| hasError := true |} = true
  ∧ mount failing_child = Threw (mkError "render failed")
  ∧ mount (ErrorBoundary.element {| children := failing_child |}) = Rendered error_page.
Proof.
  split; [reflexivity|]. split; [reflexivity|].
  destruct (ErrorBoundary_intercepts {| children := failing_child |}
              {| hasError := false |} {| hasError := true |} eq_refl)
    as (_ & _ & _ & _ & _ & Hmount).
  exact (Hmount (mkError "render failed") eq_refl).
Defined.

(** C5: in a state with [hasError] true the rendered fallback holds a
    Retry button; its callback sets [hasError] to false, and after it
    [render] returns the children again. *)
Theorem ErrorBoundary_retry (props : ErrorBoundaryProps) (st : ErrorBoundaryState) :
  hasError st = true →
  ∃ onClick,
    button_handler "Retry" (ErrorBoundary.render props st) = Some onClick
    ∧ hasError (onClick st) = false
    ∧ ErrorBoundary.render props (onClick st) = children props.
Proof.
  intros Herr. exists ErrorBoundary.retry.
  rewrite render_error_state by done.
  split; [reflexivity|]. split; [reflexivity|].
  by apply render_ok_state.
Qed.

Lemma ErrorBoundary_retry_witness :
  hasError {| hasError := true |} = true
  ∧ ∃ onClick,
      button_handler "Retry"
        (ErrorBoundary.render {| children := RStr "page" |} {| hasError := true |})
      = Some onClick
      ∧ ErrorBoundary.render {| children := RStr "page" |} (onClick {| hasError := true |})
        = RStr "page".
Proof.
  split; [reflexivity|].
  destruct (ErrorBoundary_retry {| children := RStr "page" |} {| hasError := true |} eq_refl)
    as (onClick & Hfind & _ & Hback).
  exists onClick. split; [exact Hfind | exact Hback].
Defined.

(** ** The wrapper *)

Section Wrapper.
Context {V : Type}.
Implicit Types (Component : ComponentType (gmap string V)) (options : Options)
  (props : gmap string V).

Lemma loadingFallback_truthy options :
  loadingFallback options = fallback_if_truthy options.
Proof. reflexivity. Qed.

Lemma withSuspense_unfold Component options props :
  withSuspense Component options props
  = if or_default false (errorBoundary options)
    then ErrorBoundary.element
           {| children := suspense_around Component (delete "key" props)
                            (loadingFallback options) |}
    else suspense_around Component (delete "key" props) (loadingFallback options).
Proof. unfold withSuspense, suspense_around, jsx. by rewrite object_spread_empty. Qed.

Lemma withSuspense_wraps Component options props :
  wraps Component (delete "key" props) (loadingFallback options)
        (withSuspense Component options props).
Proof.
  rewrite withSuspense_unfold. unfold wraps.
  destruct (or_default false (errorBoundary options)); auto.
Qed.

Lemma mount_suspense_around Component props fb :
  mount (suspense_around Component props fb)
  = match Component props with
    | Rendered output => match mount output with Suspended => mount fb | done => done end
    | Suspended => mount fb
    | Threw e => Threw e
    end.
Proof. unfold suspense_around. cbn [mount]. by destruct (Component props). Qed.

(** While the component suspends, the page is what the fallback renders to. *)
Lemma mount_wrapper_suspended Component options props dom :
  Component (delete "key" props) = Suspended →
  mount (loadingFallback options) = Rendered dom →
  mount (withSuspense Component options props) = Rendered dom.
Proof.
  intros Hsusp Hfb. rewrite withSuspense_unfold.
  destruct (or_default false (errorBoundary options)).
  - rewrite mount_boundary. cbn [children].
    by rewrite mount_suspense_around, Hsusp, Hfb.
  - by rewrite mount_suspense_around, Hsusp.
Qed.

(** When the component throws, the boundary, if there is one, takes over. *)
Lemma mount_wrapper_threw Component options props e :
  Component (delete "key" props) = Threw e →
  mount (withSuspense Component options props)
  = if or_default false (errorBoundary options) then mount error_ui else Threw e.
Proof.
  intros Hthrow. rewrite withSuspense_unfold.
  destruct (or_default false (errorBoundary options)).
  - rewrite mount_boundary. cbn [children].
    by rewrite mount_suspense_around, Hthrow.
  - by rewrite mount_suspense_around, Hthrow.
Qed.

End Wrapper.

(** C1, as stated, fails for a fallback of [0]: the [Suspense] element
    gets the default placeholder, not the [0] that was passed. *)
Lemma withSuspense_drops_zero_fallback :
  withSuspense greeting zero_fallback ∅
  = suspense_around greeting ∅
      (RFunction DefaultLoadingFallback {| size := Some md |})
  ∧ ¬ wraps greeting ∅ (fallback_if_provided zero_fallback)
        (withSuspense greeting zero_fallback ∅).
Proof.
  split; [by rewrite withSuspense_unfold|].
  rewrite withSuspense_unfold. intros [H|H].
  - apply (f_equal suspense_fallback) in H. discriminate H.
  - discriminate H.
Qed.

(** C1, amended: for every component, options and props the wrapper
    returns the component's element, carrying those props less the [key]
    attribute that element creation keeps, inside a [Suspense] element whose
    fallback is [options.fallback] when that is truthy, and otherwise the
    default placeholder sized by [options.loadingSize], ['md'] when omitted.
    The [Suspense] element is the result itself when [options.errorBoundary]
    is false or omitted, and the only child of an [ErrorBoundary], which
    renders it as long as nothing has thrown, when the option is true. *)
Theorem withSuspense_fallback {V : Type} (Component : ComponentType (gmap string V))
    (options : Options) (props : gmap string V) :
  let kept :=
    if truthy (fallback options) then fallback options
    else RFunction DefaultLoadingFallback
           {| size := Some (match loadingSize options with
                            | Some s => s
                            | None => md
                            end) |} in
  let inside := RSuspense kept (RFunction Component (delete "key" props)) in
  withSuspense Component options props
  = match errorBoundary options with
    | Some true => ErrorBoundary.element {| children := inside |}
    | Some false | None => inside
    end
  ∧ ErrorBoundary.render {| children := inside |}
      (ErrorBoundary.constructor {| children := inside |}) = inside
  ∧ fallback_if_truthy options = kept.
Proof.
  cbv zeta. split; [|split; reflexivity].
  rewrite withSuspense_unfold, loadingFallback_truthy.
  by destruct (errorBoundary options) as [[]|].
Qed.

(** C2, as stated, fails: with the options left out there is no boundary,
    and an error of the component leaves the wrapper as an error. *)
Lemma withSuspense_default_lets_errors_through :
  mount (withSuspense always_throws no_options ∅) = Threw (mkError "render failed")
  ∧ ¬ placeholder_then_error_ui always_throws no_options ∅.
Proof.
  assert (Hm : mount (withSuspense always_throws no_options ∅)
               = Threw (mkError "render failed"))
    by (by rewrite (mount_wrapper_threw _ _ _ (mkError "render failed"))).
  split; [exact Hm|].
  intros [_ H]. specialize (H _ eq_refl). rewrite Hm in H.
  destruct mount_error_ui as [dom Hdom]. rewrite Hdom in H. discriminate H.
Qed.

(** C2, amended: the wrapper shows what its loading fallback renders to
    while the component, called with the props its element carries,
    suspends; when the component throws, it shows the boundary's fallback
    if [options.errorBoundary] is true, and with the option false or
    omitted the error goes on to the caller. *)
Theorem withSuspense_placeholder_and_errors {V : Type}
    (Component : ComponentType (gmap string V)) (options : Options)
    (props : gmap string V) :
  (Component (delete "key" props) = Suspended →
     ∀ dom, mount (loadingFallback options) = Rendered dom →
            mount (withSuspense Component options props) = Rendered dom)
  ∧ (truthy (fallback options) = false →
       ∃ dom, mount (loadingFallback options) = Rendered dom)
  ∧ (∀ e, Component (delete "key" props) = Threw e →
       match errorBoundary options with
       | Some true =>
           ∃ dom, mount error_ui = Rendered dom
                  ∧ mount (withSuspense Component options props) = Rendered dom
       | Some false | None =>
           mount (withSuspense Component options props) = Threw e
       end).
Proof.
  split; [intros Hs dom Hfb; by apply mount_wrapper_suspended|].
  split.
  - intros Hfalsy. unfold loadingFallback. rewrite js_or_falsy by done.
    destruct (loadingSize options) as [[]|]; eexists; reflexivity.
  - intros e Hthrow. rewrite (mount_wrapper_threw _ _ _ e Hthrow).
    destruct (errorBoundary options) as [[]|]; simpl; try done.
    destruct mount_error_ui as [dom Hdom]. by exists dom.
Qed.

Lemma withSuspense_placeholder_and_errors_witness :
  (∃ dom, mount (withSuspense always_suspends no_options ∅) = Rendered dom)
  ∧ (∃ dom, mount (withSuspense always_throws with_boundary ∅) = Rendered dom)
  ∧ mount (withSuspense always_throws no_options ∅) = Threw (mkError "render failed").
Proof.
  destruct (withSuspense_placeholder_and_errors always_suspends no_options ∅)
    as (Hsusp & Hfb & _).
  destruct (withSuspense_placeholder_and_errors always_throws with_boundary ∅)
    as (_ & _ & Hon).
  destruct (withSuspense_placeholder_and_errors always_throws no_options ∅)
    as (_ & _ & Hoff).
  split; [|split].
  - destruct (Hfb eq_refl) as [dom Hdom]. exists dom. exact (Hsusp eq_refl dom Hdom).
  - destruct (Hon (mkError "render failed") eq_refl) as (dom & _ & Hdom).
    exists dom. exact Hdom.
  - exact (Hoff (mkError "render failed") eq_refl).
Defined.

(** C7: the wrapper passes its [loadingFallback] as the fallback of the
    [Suspense] element around the component's element, and while the
    component suspends the page is what that fallback renders to. *)
Theorem loadingFallback_is_suspense_fallback {V : Type}
    (Component : ComponentType (gmap string V)) (options : Options)
    (props : gmap string V) :
  wraps Component (delete "key" props) (loadingFallback options)
        (withSuspense Component options props)
  ∧ (Component (delete "key" props) = Suspended →
       ∀ dom, mount (loadingFallback options) = Rendered dom →
              mount (withSuspense Component options props) = Rendered dom).
Proof.
  split; [apply withSuspense_wraps|].
  intros Hs dom Hfb. by apply mount_wrapper_suspended.
Qed.

Lemma loadingFallback_is_suspense_fallback_witness :
  always_suspends ∅ = Suspended
  ∧ mount (loadingFallback with_boundary) = mount (withSuspense always_suspends with_boundary ∅).
Proof.
  split; [reflexivity|].
  destruct (loadingFallback_is_suspense_fallback always_suspends with_boundary ∅)
    as [_ Hshown].
  symmetry. exact (Hshown eq_refl _ eq_refl).
Defined.

(** C10, as stated, fails for props with a [key] field: the element of
    the component does not carry it, so the component is called without. *)
Lemma withSuspense_takes_key_out :
  mount (withSuspense shows_key no_options keyed_props) = Rendered [Text "no key"]
  ∧ ¬ forwards_every_field shows_key no_options keyed_props.
Proof.
  assert (Hm : mount (withSuspense shows_key no_options keyed_props)
               = Rendered [Text "no key"]).
  { rewrite withSuspense_unfold. cbn [or_default errorBoundary no_options].
    rewrite mount_suspense_around. unfold shows_key.
    by rewrite lookup_delete_eq. }
  split; [exact Hm|].
  intros (forwarded & Hsame & [Hw | Hw]).
  - apply (f_equal mount) in Hw. rewrite Hm, mount_suspense_around in Hw.
    unfold shows_key in Hw. rewrite Hsame in Hw.
    unfold keyed_props in Hw. rewrite lookup_insert_eq in Hw. discriminate Hw.
  - rewrite withSuspense_unfold in Hw. discriminate Hw.
Qed.

(** C10, amended: the element of the wrapped component carries the fields
    of the wrapper's props, each with its value, except [key], which is
    never passed on; no field is added and none is modified (for the other
    attribute names the framework may reserve nothing is said); and when
    [options.errorBoundary] is false or omitted the result is the
    [Suspense] element itself, with no [ErrorBoundary] in the tree. *)
Theorem withSuspense_forwards_props {V : Type}
    (Component : ComponentType (gmap string V)) (options : Options)
    (props : gmap string V) :
  (∃ forwarded : gmap string V,
      (∀ field, field ∉ reserved_attributes → forwarded !! field = props !! field)
      ∧ forwarded !! "key" = None
      ∧ (∀ field value, forwarded !! field = Some value → props !! field = Some value)
      ∧ wraps Component forwarded (loadingFallback options)
              (withSuspense Component options props))
  ∧ (errorBoundary options = None ∨ errorBoundary options = Some false →
       withSuspense Component options props
       = RSuspense (loadingFallback options) (RFunction Component (delete "key" props))
       ∧ contains_error_boundary (withSuspense Component options props) = false).
Proof.
  split.
  - exists (delete "key" props). split; [|split; [|split]].
    + intros field Hfree. apply lookup_delete_ne. intros <-.
      apply Hfree. apply list_elem_of_here.
    + apply lookup_delete_eq.
    + intros field value [_ Hlook]%lookup_delete_Some. exact Hlook.
    + apply withSuspense_wraps.
  - intros Hoff. rewrite withSuspense_unfold.
    by destruct Hoff as [-> | ->].
Qed.

Lemma withSuspense_forwards_props_witness :
  errorBoundary no_options = None
  ∧ ("id" ∉ reserved_attributes)
  ∧ contains_error_boundary (withSuspense greeting no_options keyed_props) = false
  ∧ ∃ forwarded : gmap string Z,
      forwarded !! "id" = Some 7%Z ∧ forwarded !! "key" = None
      ∧ wraps greeting forwarded (loadingFallback no_options)
              (withSuspense greeting no_options keyed_props).
Proof.
  assert (Hid : "id" ∉ reserved_attributes).
  { unfold reserved_attributes. intros Hin.
    repeat (apply elem_of_cons in Hin as [Hin | Hin]; [discriminate Hin|]).
    by apply elem_of_nil in Hin. }
  split; [reflexivity|]. split; [exact Hid|].
  destruct (withSuspense_forwards_props greeting no_options keyed_props)
    as [(forwarded & Hkeep & Hkey & _ & Hwraps) Hoff].
  split; [exact (proj2 (Hoff (or_introl eq_refl)))|].
  exists forwarded. split; [|split; [exact Hkey | exact Hwraps]].
  rewrite (Hkeep "id" Hid). reflexivity.
Defined.

(** ** The module body *)

Lemma lookup_app_plus {A} (l1 l2 : list A) (i : nat) :
  (l1 ++ l2)%list !! (length l1 + i)%nat = l2 !! i.
Proof. rewrite lookup_app_r by lia. f_equal. lia. Qed.

(** One allocation, as a step of the module body. *)
Lemma bind_lazy {A} (ctor : ImportFn) (k : LazyRef -> M A) ld lz rx con :
  bind (lazy ctor) k {| loader := ld; lazies := lz; reactions := rx; console := con |}
  = k (length lz)
      {| loader := ld; lazies := (lz ++ [Uninitialized ctor])%list;
         reactions := rx; console := con |}.
Proof. reflexivity. Qed.

(** Evaluating the module allocates the fifteen objects, one after the
    other, and touches nothing else of the realm. *)
Lemma module_body_spec (r : Realm) :
  module_body r
  = (exports_from (length (lazies r)),
     {| loader := loader r; lazies := (lazies r ++ fresh_payloads)%list;
        reactions := reactions r; console := console r |}).
Proof.
  destruct r as [ld lz rx con]. cbn [loader lazies reactions console].
  unfold module_body.
  do 15 (rewrite bind_lazy; cbv beta).
  unfold ret.
  repeat rewrite <- app_assoc. cbn [app].
  repeat rewrite length_app. cbn [length].
  f_equal.
  cbv [exports_from imap lazy_bindings component_names list_to_map foldr fst snd
       app compose uncurry].
  rewrite Nat.add_0_r. reflexivity.
Qed.

Lemma binding_position (n : nat) (name specifier : string) :
  (name, specifier) ∈ lazy_bindings →
  ∃ i, export_named name (exports_from n) = Some (LazyExport (n + i))
       ∧ fresh_payloads !! i = Some (Uninitialized (fun _ => dynamic_import specifier)).
Proof.
  unfold lazy_bindings. intros Hin.
  repeat (apply elem_of_cons in Hin as [Hin | Hin];
          [injection Hin as -> ->; eexists; split; reflexivity|]).
  by apply elem_of_nil in Hin.
Qed.

Lemma lazy_export_is_binding (n : nat) (name : string) (ref : LazyRef) :
  (name, LazyExport ref) ∈ exports_from n →
  ∃ specifier, (name, specifier) ∈ lazy_bindings.
Proof.
  cbv [exports_from imap lazy_bindings fst snd app compose]. intros Hin.
  repeat (apply elem_of_cons in Hin as [Hin | Hin];
          [first [ discriminate Hin
                 | injection Hin as -> _; eexists; unfold lazy_bindings;
                   repeat first [apply list_elem_of_here | apply list_elem_of_further] ]
          | ]).
  by apply elem_of_nil in Hin.
Qed.

(** ** [lazy] objects at their first and later renders *)

Lemma lazyInitializer_first (specifier : string) (ref : LazyRef) (r : Realm) :
  deferred specifier ref r →
  lazyInitializer ref r
  = (Suspended,
     {| loader := {| registry := registry (loader r);
                     requested := (requested (loader r) ++ [specifier])%list |};
        lazies := <[ref := Pending (registry (loader r) specifier)]> (lazies r);
        reactions := (reactions r ++ [OnLazy (registry (loader r) specifier) ref])%list;
        console := console r |}).
Proof.
  intros (ctor & Hlook & Hctor). unfold lazyInitializer. rewrite Hlook.
  unfold bind, call. rewrite Hctor. reflexivity.
Qed.

Lemma lazyInitializer_pending (ref : LazyRef) (p : Promise) (r : Realm) :
  lazies r !! ref = Some (Pending p) → lazyInitializer ref r = (Suspended, r).
Proof. intros Hlook. unfold lazyInitializer. by rewrite Hlook. Qed.

(** The thunk of a deferred object runs at the first render and never again. *)
Lemma lazyInitializer_once (specifier : string) (ref : LazyRef) (r : Realm) :
  deferred specifier ref r →
  fst (lazyInitializer ref r) = Suspended
  ∧ requested (loader (snd (lazyInitializer ref r)))
    = (requested (loader r) ++ [specifier])%list
  ∧ requested (loader (snd (lazyInitializer ref (snd (lazyInitializer ref r)))))
    = (requested (loader r) ++ [specifier])%list.
Proof.
  intros Hdef. rewrite (lazyInitializer_first specifier) by done.
  split; [done|]. split; [done|]. cbn [snd].
  destruct Hdef as (ctor & Hlook & _).
  erewrite lazyInitializer_pending; [done|].
  cbn [lazies]. apply list_lookup_insert_eq. by eapply lookup_lt_Some.
Qed.

(** [preloadComponent] calls the function it is given before it returns. *)
Lemma preloadComponent_imports_at_once (specifier : string) (r : Realm) :
  requested (loader (snd (preloadComponent (fun _ => dynamic_import specifier) r)))
  = (requested (loader r) ++ [specifier])%list.
Proof. reflexivity. Qed.

(** C3, as stated, fails: [withSuspense] is an export and is a function,
    not a [lazy] binding (so are [preloadComponent] and, as an object,
    [LazyComponents]). *)
Lemma withSuspense_export_is_no_import :
  export_named "withSuspense" (fst (module_body (fresh offline))) = Some FunctionExport
  ∧ ¬ every_export_defers_an_import (fst (module_body (fresh offline))).
Proof.
  rewrite module_body_spec. split; [reflexivity|].
  intros H. destruct (H "withSuspense" FunctionExport) as [ref Href]; [|discriminate Href].
  cbn [fst]. cbv [exports_from imap lazy_bindings fst snd app compose].
  repeat first [apply list_elem_of_here | apply list_elem_of_further].
Qed.

(** C3, amended: each of the fifteen [Lazy*] exports is a [lazy] object
    holding the thunk of its import, and these are all the [lazy] exports;
    evaluating the module requests no import; the first render of such an
    object calls its thunk, which requests exactly its specifier, and a
    later render requests nothing more.  The other three exports are the
    functions [withSuspense] and [preloadComponent], the latter calling the
    function it is given at once, and the object [LazyComponents]. *)
Theorem lazy_exports_defer_imports (r : Realm) :
  let exports := fst (module_body r) in
  let loaded := snd (module_body r) in
  requested (loader loaded) = requested (loader r)
  ∧ (∀ name specifier, (name, specifier) ∈ lazy_bindings →
       ∃ ref, export_named name exports = Some (LazyExport ref)
              ∧ deferred specifier ref loaded
              ∧ fst (lazyInitializer ref loaded) = Suspended
              ∧ requested (loader (snd (lazyInitializer ref loaded)))
                = (requested (loader r) ++ [specifier])%list
              ∧ requested (loader (snd (lazyInitializer ref
                                          (snd (lazyInitializer ref loaded)))))
                = (requested (loader r) ++ [specifier])%list)
  ∧ (∀ name ref, (name, LazyExport ref) ∈ exports →
       ∃ specifier, (name, specifier) ∈ lazy_bindings)
  ∧ export_named "withSuspense" exports = Some FunctionExport
  ∧ export_named "preloadComponent" exports = Some FunctionExport
  ∧ (∃ fields, export_named "LazyComponents" exports = Some (ObjectExport fields))
  ∧ (∀ specifier,
       requested (loader (snd (preloadComponent (fun _ => dynamic_import specifier) loaded)))
       = (requested (loader r) ++ [specifier])%list).
Proof.
  cbv zeta. rewrite module_body_spec. cbn [fst snd loader].
  split; [done|]. split; [|split; [|split; [|split; [|split]]]].
  - intros name specifier Hin.
    destruct (binding_position (length (lazies r)) name specifier Hin) as (i & Hexp & Hpay).
    exists (length (lazies r) + i)%nat. split; [done|].
    assert (Hdef : deferred specifier (length (lazies r) + i)
                     {| loader := loader r; lazies := (lazies r ++ fresh_payloads)%list;
                        reactions := reactions r; console := console r |}).
    { eexists. split; [cbn [lazies]; by rewrite lookup_app_plus | done]. }
    split; [done|]. by apply (lazyInitializer_once specifier) in Hdef.
  - intros name ref. apply lazy_export_is_binding.
  - reflexivity.
  - reflexivity.
  - eexists. reflexivity.
  - intros specifier. reflexivity.
Qed.

Lemma lazy_exports_defer_imports_witness :
  ("LazyCoinCard", "./components/marketplace/CoinCard") ∈ lazy_bindings
  ∧ requested (loader (snd (module_body (fresh offline)))) = []
  ∧ ∃ ref, export_named "LazyCoinCard" (fst (module_body (fresh offline)))
           = Some (LazyExport ref)
           ∧ requested (loader (snd (lazyInitializer ref (snd (module_body (fresh offline))))))
             = ["./components/marketplace/CoinCard"].
Proof.
  assert (Hin : ("LazyCoinCard", "./components/marketplace/CoinCard") ∈ lazy_bindings).
  { unfold lazy_bindings.
    repeat first [apply list_elem_of_here | apply list_elem_of_further]. }
  split; [exact Hin|].
  destruct (lazy_exports_defer_imports (fresh offline)) as (Hnone & Hlazy & _).
  split; [exact Hnone|].
  destruct (Hlazy _ _ Hin) as (ref & Hexp & _ & _ & Hfirst & _).
  exists ref. split; [exact Hexp | exact Hfirst].
Defined.

(** ** The [LazyComponents] object *)






(** ** Preloading *)

(** Reactions read and write the [lazy] objects and the console only. *)
Lemma react_heap (x : Reaction) (r1 r2 : Realm) :
  lazies r1 = lazies r2 → console r1 = console r2 →
  lazies (react x r1) = lazies (react x r2)
  ∧ console (react x r1) = console (react x r2).
Proof.
  intros Hl Hc. destruct x as [p [] | p target]; simpl.
  - destruct p; simpl; by rewrite ?Hc.
  - rewrite <- Hl.
    destruct (lazies r1 !! target) as [[]|], p; simpl; by rewrite ?Hl, ?Hc.
Qed.

Lemma foldl_react_heap (xs : list Reaction) (r1 r2 : Realm) :
  lazies r1 = lazies r2 → console r1 = console r2 →
  lazies (foldl (fun acc x => react x acc) r1 xs)
  = lazies (foldl (fun acc x => react x acc) r2 xs)
  ∧ console (foldl (fun acc x => react x acc) r1 xs)
    = console (foldl (fun acc x => react x acc) r2 xs).
Proof.
  revert r1 r2. induction xs as [|x xs IH]; intros r1 r2 Hl Hc; simpl; [done|].
  destruct (react_heap x r1 r2 Hl Hc) as [Hl' Hc']. by apply IH.
Qed.

(** What the console holds after the host has run the reactions, when one
    more [.catch(console.error)] was attached to [p] beforehand. *)
Lemma drain_after_catch (p : Promise) (l : Loader) (r : Realm) :
  console (drain {| loader := l; lazies := lazies r;
                    reactions := (reactions r ++ [OnRejected p console_error])%list;
                    console := console r |})
  = (console (drain r)
     ++ match p with Rejected reason => [reason] | _ => [] end)%list.
Proof.
  unfold drain, run_in_order, due. cbn [loader lazies reactions console].
  rewrite !filter_app.
  destruct p as [m | reason |]; cbn [filter list_filter settled];
    repeat case_decide; try done.
  - rewrite foldl_snoc. cbn [react]. rewrite !app_nil_r.
    by apply foldl_react_heap.
  - rewrite foldl_snoc. cbn [react console]. f_equal.
    by apply foldl_react_heap.
  - rewrite !app_nil_r. by apply foldl_react_heap.
Qed.

(** A reaction writes to the console what [reported] says, and nothing else. *)
Lemma react_console (x : Reaction) (r : Realm) :
  console (react x r) = (console r ++ reported [x])%list.
Proof.
  destruct x as [[m | reason |] [] | p target]; cbn; rewrite ?app_nil_r; try done.
  by destruct (lazies r !! target) as [[]|], p.
Qed.

Lemma foldl_react_console (xs : list Reaction) (r : Realm) :
  console (foldl (fun acc x => react x acc) r xs) = (console r ++ reported xs)%list.
Proof.
  revert r. induction xs as [|x xs IH]; intros r; simpl; [by rewrite app_nil_r|].
  rewrite IH, react_console, <- app_assoc. f_equal.
  unfold reported. by rewrite <- omap_app.
Qed.

(** Whatever the order in which the due reactions run, the console grows by
    what they report, in that order. *)
Lemma run_in_order_console (order : list Reaction) (r : Realm) :
  console (run_in_order order r) = (console r ++ reported order)%list.
Proof. unfold run_in_order. by rewrite foldl_react_console. Qed.

(** Only reactions that are due report anything. *)
Lemma reported_due (xs : list Reaction) :
  reported (filter (fun x => settled x = true) xs) = reported xs.
Proof.
  induction xs as [|x xs IH]; [done|].
  rewrite filter_cons.
  destruct x as [[m | reason |] [] | [m | reason |] target];
    cbn [settled]; case_decide; try done;
    unfold reported in *; cbn [omap list_omap]; by rewrite ?IH.
Qed.

Lemma reported_Permutation (xs ys : list Reaction) :
  xs ≡ₚ ys → reported xs ≡ₚ reported ys.
Proof. intros Hperm. unfold reported. by rewrite Hperm. Qed.

Lemma console_drain (r : Realm) :
  console (drain r) = (console r ++ reported (reactions r))%list.
Proof. unfold drain, due. by rewrite run_in_order_console, reported_due. Qed.

(** C9, as stated, fails: an import function that throws before it has a
    promise to return makes [preloadComponent] throw the same error. *)
Lemma preloadComponent_rethrows :
  fst (preloadComponent throwing_import (fresh offline))
  = Abrupt (mkError "loader is not a function")
  ∧ ¬ returns_normally throwing_import (fresh offline).
Proof. split; [reflexivity|]. intros H. discriminate H. Qed.

(** C9, amended: when the call of the import function returns a promise,
    [preloadComponent] returns without throwing and writes nothing to the
    console; if that promise rejects, its reason is passed to
    [console.error] once the host runs the reactions, and otherwise nothing
    is; this holds in the run that follows the order of attachment, where
    the reason comes last, and, up to the order of the lines, in every
    other run.  When the call of the import function itself throws, so does
    [preloadComponent]. *)
Theorem preloadComponent_returns (importFn : ImportFn) (r : Realm) :
  match fst (importFn tt (loader r)) with
  | Normal p =>
      returns_normally importFn r
      ∧ console (snd (preloadComponent importFn r)) = console r
      ∧ console (drain (snd (preloadComponent importFn r)))
        = (console (drain r)
           ++ match p with Rejected reason => [reason] | _ => [] end)%list
      ∧ (∀ order,
           order ≡ₚ due (snd (preloadComponent importFn r)) →
           console (run_in_order order (snd (preloadComponent importFn r)))
           ≡ₚ (console (drain r)
               ++ match p with Rejected reason => [reason] | _ => [] end)%list)
  | Abrupt e => fst (preloadComponent importFn r) = Abrupt e
  end.
Proof.
  unfold returns_normally, preloadComponent, bind, call, attach, ret.
  destruct (importFn tt (loader r)) as [[p | e] l]; cbn [fst snd]; [|done].
  split; [done|]. split; [done|].
  cbn [loader lazies reactions console]. split; [apply drain_after_catch|].
  intros order Horder.
  rewrite run_in_order_console, console_drain, (reported_Permutation _ _ Horder).
  cbn [console]. unfold due. cbn [reactions]. rewrite reported_due.
  unfold reported. rewrite omap_app, <- app_assoc. cbn [omap list_omap].
  by destruct p.
Qed.

Lemma preloadComponent_returns_witness :
  fst (preloadComponent rejecting_import (fresh offline)) = Normal tt
  ∧ console (run_in_order (due (snd (preloadComponent rejecting_import (fresh offline))))
               (snd (preloadComponent rejecting_import (fresh offline))))
    ≡ₚ [mkError "chunk load failed"].
Proof.
  destruct (preloadComponent_returns rejecting_import (fresh offline))
    as (Hret & _ & _ & Hany).
  split; [exact Hret|].
  exact (Hany _ (reflexivity _)).
Defined.

Example preloadComponent_rejection :
  fst (preloadComponent rejecting_import (fresh offline)) = Normal tt
  ∧ console (drain (snd (preloadComponent rejecting_import (fresh offline))))
    = [mkError "chunk load failed"].
Proof. split; reflexivity. Qed.

(** * Further properties *)

(** ** The placeholder on the page *)

(** X1: for every size the spinner is square, its height and width classes
    carrying the same number, the minimum height goes to the container and
    not to the spinner, no class reads [undefined], and the placeholder
    renders to these two nested elements without suspending or throwing. *)
Theorem DefaultLoadingFallback_square (props : LoadingProps) :
  ∃ side height : string,
    DefaultLoadingFallback props
    = Rendered
        (RHost "div"
           (Some ("flex items-center justify-center h-" ++ side ++ " w-" ++ side
                    ++ " min-h-[" ++ height ++ "px]"))
           None
           [RHost "div"
              (Some ("animate-spin rounded-full h-" ++ side ++ " w-" ++ side
                       ++ " border-b-2 border-white"))
              None []])
    ∧ mount (RFunction DefaultLoadingFallback props)
      = Rendered
          [Element "div"
             (Some ("flex items-center justify-center h-" ++ side ++ " w-" ++ side
                      ++ " min-h-[" ++ height ++ "px]"))
             None
             [Element "div"
                (Some ("animate-spin rounded-full h-" ++ side ++ " w-" ++ side
                         ++ " border-b-2 border-white"))
                None []]].
Proof.
  destruct props as [[[]|]].
  - exists "5", "100". split; reflexivity.
  - exists "8", "200". split; reflexivity.
  - exists "12", "300". split; reflexivity.
  - exists "8", "200". split; reflexivity.
Qed.

(** ** The wrapper on the page *)

(** First render of a wrapper, in full. *)
Lemma mount_withSuspense {V : Type} (Component : ComponentType (gmap string V))
    (options : Options) (props : gmap string V) :
  mount (withSuspense Component options props)
  = let inner :=
      match Component (delete "key" props) with
      | Rendered output =>
          match mount output with
          | Suspended => mount (loadingFallback options)
          | done => done
          end
      | Suspended => mount (loadingFallback options)
      | Threw e => Threw e
      end in
    if or_default false (errorBoundary options)
    then match inner with Threw _ => mount error_ui | done => done end
    else inner.
Proof.
  rewrite withSuspense_unfold. cbv zeta.
  destruct (or_default false (errorBoundary options)).
  - rewrite mount_boundary. cbn [children]. rewrite mount_suspense_around.
    destruct (Component (delete "key" props)) as [output | | e];
      [destruct (mount output)|..];
      try done; by destruct (mount (loadingFallback options)).
  - by rewrite mount_suspense_around.
Qed.

(** X2: a component that renders puts on the page exactly what its own
    element [<Component {...props} />] would put there unwrapped, whatever
    the options: the wrapper adds no element of its own. *)
Theorem withSuspense_transparent {V : Type} (Component : ComponentType (gmap string V))
    (options : Options) (props : gmap string V) (output : ReactNode)
    (dom : list Dom) :
  Component (delete "key" props) = Rendered output →
  mount output = Rendered dom →
  mount (withSuspense Component options props) = Rendered dom
  ∧ mount (jsx Component props) = Rendered dom.
Proof.
  intros Hout Hdom. rewrite mount_withSuspense, Hout, Hdom. unfold jsx. cbn [mount].
  rewrite Hout. by destruct (or_default false (errorBoundary options)).
Qed.

Lemma withSuspense_transparent_witness :
  mount (withSuspense greeting with_boundary {[ "id" := 7%Z ]}) = Rendered [Text "hello"].
Proof.
  exact (proj1 (withSuspense_transparent greeting with_boundary {[ "id" := 7%Z ]}
                  (RStr "hello") [Text "hello"] eq_refl eq_refl)).
Defined.

(** X3: when the loading fallback renders, the wrapper never suspends to
    what is above it, whatever the component and its output do; and with
    [errorBoundary] true it never throws either: something is always
    rendered. *)
Theorem withSuspense_is_a_boundary {V : Type} (Component : ComponentType (gmap string V))
    (options : Options) (props : gmap string V) (placeholder : list Dom) :
  mount (loadingFallback options) = Rendered placeholder →
  mount (withSuspense Component options props) ≠ Suspended
  ∧ (errorBoundary options = Some true →
       ∃ dom, mount (withSuspense Component options props) = Rendered dom).
Proof.
  intros Hfb. rewrite mount_withSuspense, Hfb. cbv zeta.
  destruct mount_error_ui as [ui Hui]. rewrite Hui. split.
  - destruct (Component (delete "key" props)) as [output | | e];
      [destruct (mount output)|..];
      destruct (or_default false (errorBoundary options)); discriminate.
  - intros ->. cbn [or_default].
    destruct (Component (delete "key" props)) as [output | | e];
      [destruct (mount output)|..]; eauto.
Qed.

Lemma withSuspense_is_a_boundary_witness :
  mount (withSuspense always_suspends with_boundary ∅) ≠ Suspended
  ∧ ∃ dom, mount (withSuspense always_throws with_boundary ∅) = Rendered dom.
Proof.
  destruct (withSuspense_is_a_boundary always_suspends with_boundary ∅ _ eq_refl)
    as [Hnever _].
  destruct (withSuspense_is_a_boundary always_throws with_boundary ∅ _ eq_refl)
    as [_ Halways].
  split; [exact Hnever | exact (Halways eq_refl)].
Defined.

(** X4: while the component suspends, the wrapper does what its loading
    fallback does, with one exception: a fallback that throws is caught by
    the boundary when [errorBoundary] is true, since the boundary is put
    around the whole [Suspense] element; without it the fallback's error
    goes up. *)
Theorem withSuspense_while_suspended {V : Type}
    (Component : ComponentType (gmap string V)) (options : Options)
    (props : gmap string V) :
  Component (delete "key" props) = Suspended →
  mount (withSuspense Component options props)
  = match mount (loadingFallback options), errorBoundary options with
    | Threw e, Some true => mount error_ui
    | outcome, _ => outcome
    end.
Proof.
  intros Hs. rewrite mount_withSuspense, Hs. cbv zeta.
  destruct (errorBoundary options) as [[]|], (mount (loadingFallback options)); done.
Qed.

Lemma withSuspense_while_suspended_witness :
  mount (withSuspense always_suspends
           {| fallback := failing_child; errorBoundary := Some true; loadingSize := None |} ∅)
  = mount error_ui
  ∧ mount (withSuspense always_suspends
             {| fallback := failing_child; errorBoundary := None; loadingSize := None |} ∅)
    = Threw (mkError "render failed").
Proof.
  split.
  - exact (withSuspense_while_suspended always_suspends
             {| fallback := failing_child; errorBoundary := Some true; loadingSize := None |}
             ∅ eq_refl).
  - exact (withSuspense_while_suspended always_suspends
             {| fallback := failing_child; errorBoundary := None; loadingSize := None |}
             ∅ eq_refl).
Defined.

(** ** The boundary over time *)

Lemma handle_throw props i e :
  hasError (current (handle props i (ChildThrew e))) = true
  ∧ logged (handle props i (ChildThrew e))
    = (logged i ++ [("Lazy component error:", e)])%list.
Proof. done. Qed.

Lemma handle_retry props i :
  hasError (current (handle props i RetryClicked)) = false
  ∧ logged (handle props i RetryClicked) = logged i.
Proof.
  unfold handle. destruct (hasError (current i)) eqn:Herr; [|done].
  by rewrite render_error_state.
Qed.

(** X5: after any sequence of caught errors and Retry clicks, the boundary
    shows its fallback exactly when the last thing that happened was a
    caught error; and its console output is one line, labelled
    [Lazy component error:], per caught error, in the order they were
    caught: a Retry writes nothing and erases nothing. *)
Theorem boundary_history (props : ErrorBoundaryProps) (events : list BoundaryEvent) :
  hasError (current (after props events))
  = match last events with
    | Some (ChildThrew _) => true
    | Some RetryClicked | None => false
    end
  ∧ logged (after props events)
    = (fun e => ("Lazy component error:", e)) <$> thrown events.
Proof.
  unfold after, thrown.
  induction events as [|ev events [IHstate IHlog]] using rev_ind; [done|].
  rewrite foldl_snoc, last_snoc, omap_app, fmap_app.
  destruct ev as [e|].
  - destruct (handle_throw props (foldl (handle props) (mounted props) events) e)
      as [-> ->].
    by rewrite IHlog.
  - destruct (handle_retry props (foldl (handle props) (mounted props) events))
      as [-> ->].
    rewrite IHlog. cbn [omap list_omap fmap list_fmap]. by rewrite app_nil_r.
Qed.

(** X6: clicking Retry makes the boundary render as it did when it was
    first mounted: children that render now are on the page again, and
    children that still throw bring the fallback back. *)
Theorem retry_renders_like_first_mount (props : ErrorBoundaryProps)
    (st : ErrorBoundaryState) :
  hasError st = true →
  ∃ onClick,
    button_handler "Retry" (ErrorBoundary.render props st) = Some onClick
    ∧ rerender props (onClick st) = mount (ErrorBoundary.element props)
    ∧ (∀ dom, mount (children props) = Rendered dom →
         rerender props (onClick st) = Rendered dom)
    ∧ (∀ e, mount (children props) = Threw e →
         rerender props (onClick st) = mount error_ui
         ∧ rerender props st = mount error_ui).
Proof.
  intros Herr. exists ErrorBoundary.retry.
  rewrite render_error_state by done.
  split; [reflexivity|].
  assert (Hsame : rerender props (ErrorBoundary.retry st)
                  = mount (ErrorBoundary.element props)) by reflexivity.
  split; [exact Hsame|]. rewrite Hsame, mount_boundary.
  split.
  - by intros dom ->.
  - intros e ->. split; [done|].
    unfold rerender. cbn [mount]. rewrite render_error_state by done.
    by destruct mount_error_ui as [ui ->].
Qed.

Lemma retry_renders_like_first_mount_witness :
  hasError {| hasError := true |} = true
  ∧ rerender {| children := failing_child |} (ErrorBoundary.retry {| hasError := true |})
    = mount error_ui
  ∧ rerender {| children := RStr "page" |} (ErrorBoundary.retry {| hasError := true |})
    = Rendered [Text "page"].
Proof.
  split; [reflexivity|].
  destruct (retry_renders_like_first_mount {| children := failing_child |}
              {| hasError := true |} eq_refl) as (h1 & Hh1 & _ & _ & Hthrow).
  destruct (retry_renders_like_first_mount {| children := RStr "page" |}
              {| hasError := true |} eq_refl) as (h2 & Hh2 & _ & Hok & _).
  injection Hh1 as <-. injection Hh2 as <-.
  split.
  - exact (proj1 (Hthrow (mkError "render failed") eq_refl)).
  - exact (Hok [Text "page"] eq_refl).
Defined.

(** ** The bindings in the realm *)

Lemma binding_at (n i : nat) (name specifier : string) :
  lazy_bindings !! i = Some (name, specifier) →
  export_named name (exports_from n) = Some (LazyExport (n + i))
  ∧ fresh_payloads !! i = Some (Uninitialized (fun _ => dynamic_import specifier)).
Proof.
  unfold lazy_bindings. intros Hi.
  do 15 (destruct i as [|i]; [injection Hi as <- <-; split; reflexivity|]).
  discriminate Hi.
Qed.

Lemma react_loader (x : Reaction) (r : Realm) : loader (react x r) = loader r.
Proof.
  destruct x as [[] [] | p target]; try done.
  simpl. by destruct (lazies r !! target) as [[]|], p.
Qed.

Lemma foldl_react_loader (xs : list Reaction) (r : Realm) :
  loader (foldl (fun acc x => react x acc) r xs) = loader r.
Proof.
  revert r. induction xs as [|x xs IH]; intros r; simpl; [done|].
  by rewrite IH, react_loader.
Qed.

(** Reactions that do not target an object leave it as it is. *)
Lemma foldl_react_untargeted (ref : LazyRef) (xs : list Reaction) (r : Realm) :
  (∀ p, OnLazy p ref ∉ xs) →
  lazies (foldl (fun acc x => react x acc) r xs) !! ref = lazies r !! ref.
Proof.
  revert r. induction xs as [|x xs IH]; intros r Hfree; simpl; [done|].
  rewrite IH by (intros p Hin; apply (Hfree p); by apply list_elem_of_further).
  destruct x as [[] [] | p target]; try done.
  assert (target ≠ ref) as Hne
    by (intros ->; apply (Hfree p); apply list_elem_of_here).
  cbn [react]. destruct (lazies r !! target) as [[]|], p; cbn [lazies]; try done;
    by rewrite list_lookup_insert_ne.
Qed.

(** X7: evaluating the module has no effect on the realm besides the
    fifteen new objects: the loader, the waiting reactions and the console
    are as before, the objects that existed keep their place and content,
    and every new object still holds its thunk. *)
Theorem module_body_frame (r : Realm) :
  let loaded := snd (module_body r) in
  loader loaded = loader r
  ∧ reactions loaded = reactions r
  ∧ console loaded = console r
  ∧ length (lazies loaded) = (length (lazies r) + 15)%nat
  ∧ (∀ i, (i < length (lazies r))%nat → lazies loaded !! i = lazies r !! i)
  ∧ (∀ i payload, (length (lazies r) ≤ i)%nat → lazies loaded !! i = Some payload →
       ∃ ctor, payload = Uninitialized ctor).
Proof.
  cbv zeta. rewrite module_body_spec. cbn [snd loader lazies reactions console].
  repeat split.
  - by rewrite length_app.
  - intros i Hi. by apply lookup_app_l.
  - intros i payload Hi. rewrite lookup_app_r by done.
    unfold fresh_payloads. rewrite list_lookup_fmap.
    destruct (lazy_bindings !! _) as [binding|]; [|done].
    intros [= <-]. by eexists.
Qed.

Lemma module_body_frame_witness :
  lazies (snd (module_body (fresh offline))) !! 14%nat
  = Some (Uninitialized (fun _ => dynamic_import "./components/landing/BuiltOnAptos"))
  ∧ ∃ ctor, lazies (snd (module_body (fresh offline))) !! 14%nat
            = Some (Uninitialized ctor).
Proof.
  assert (Hlook : lazies (snd (module_body (fresh offline))) !! 14%nat
                  = Some (Uninitialized
                            (fun _ => dynamic_import "./components/landing/BuiltOnAptos")))
    by (rewrite module_body_spec; reflexivity).
  split; [exact Hlook|].
  destruct (module_body_frame (fresh offline)) as (_ & _ & _ & _ & _ & Hnew).
  destruct (Hnew 14%nat _ (Nat.le_0_l 14) Hlook) as [ctor Hctor].
  exists ctor. rewrite Hlook. by rewrite Hctor.
Defined.

(** X8: the bindings are split from each other: the first render of one
    binding requests its own chunk only and leaves every other binding with
    its thunk uncalled; rendering a second one then requests that one's
    chunk, after the first. *)
Theorem lazy_bindings_independent (r : Realm) (name1 specifier1 name2 specifier2 : string) :
  (name1, specifier1) ∈ lazy_bindings →
  (name2, specifier2) ∈ lazy_bindings →
  name1 ≠ name2 →
  let exports := fst (module_body r) in
  let loaded := snd (module_body r) in
  ∃ ref1 ref2,
    export_named name1 exports = Some (LazyExport ref1)
    ∧ export_named name2 exports = Some (LazyExport ref2)
    ∧ ref1 ≠ ref2
    ∧ requested (loader (snd (lazyInitializer ref1 loaded)))
      = (requested (loader r) ++ [specifier1])%list
    ∧ deferred specifier2 ref2 (snd (lazyInitializer ref1 loaded))
    ∧ requested (loader (snd (lazyInitializer ref2 (snd (lazyInitializer ref1 loaded)))))
      = (requested (loader r) ++ [specifier1; specifier2])%list.
Proof.
  intros [i Hi]%list_elem_of_lookup [j Hj]%list_elem_of_lookup Hnames.
  cbv zeta. rewrite module_body_spec. cbn [fst snd].
  destruct (binding_at (length (lazies r)) i _ _ Hi) as [Hexp1 Hpay1].
  destruct (binding_at (length (lazies r)) j _ _ Hj) as [Hexp2 Hpay2].
  assert (i ≠ j) as Hij by (intros ->; congruence).
  exists (length (lazies r) + i)%nat, (length (lazies r) + j)%nat.
  split; [done|]. split; [done|]. split; [lia|].
  rewrite (lazyInitializer_first specifier1)
    by (eexists; split; [cbn [lazies]; by rewrite lookup_app_plus | done]).
  cbn [snd loader requested]. split; [done|].
  assert (Hdef2 : deferred specifier2 (length (lazies r) + j)
            {| loader := {| registry := registry (loader r);
                            requested := (requested (loader r) ++ [specifier1])%list |};
               lazies := <[(length (lazies r) + i)%nat :=
                             Pending (registry (loader r) specifier1)]>
                           (lazies r ++ fresh_payloads)%list;
               reactions := (reactions r
                             ++ [OnLazy (registry (loader r) specifier1)
                                        (length (lazies r) + i)])%list;
               console := console r |}).
  { eexists. split;
      [cbn [lazies]; rewrite list_lookup_insert_ne by lia;
       rewrite lookup_app_plus; exact Hpay2 | done]. }
  split; [exact Hdef2|].
  rewrite (lazyInitializer_first specifier2) by exact Hdef2.
  cbn [snd loader requested]. by rewrite <- app_assoc.
Qed.

Lemma lazy_bindings_independent_witness :
  ∃ ref1 ref2,
    ref1 ≠ ref2
    ∧ deferred "./components/card/BigLoanCard" ref2
        (snd (lazyInitializer ref1 (snd (module_body (fresh offline)))))
    ∧ requested (loader (snd (lazyInitializer ref1 (snd (module_body (fresh offline))))))
      = ["./components/wallet/WalletConnectionModal"].
Proof.
  assert (H1 : ("LazyWalletConnectionModal", "./components/wallet/WalletConnectionModal")
               ∈ lazy_bindings)
    by (unfold lazy_bindings;
        repeat first [apply list_elem_of_here | apply list_elem_of_further]).
  assert (H2 : ("LazyBigLoanCard", "./components/card/BigLoanCard") ∈ lazy_bindings)
    by (unfold lazy_bindings;
        repeat first [apply list_elem_of_here | apply list_elem_of_further]).
  assert (Hne : "LazyWalletConnectionModal" ≠ "LazyBigLoanCard") by discriminate.
  destruct (lazy_bindings_independent (fresh offline) _ _ _ _ H1 H2 Hne)
    as (ref1 & ref2 & _ & _ & Hrefs & Hreq & Hdef & _).
  exists ref1, ref2. split; [exact Hrefs|]. split; [exact Hdef | exact Hreq].
Defined.

(** ** A binding after its chunk has settled *)

Lemma filter_untargeted (ref : LazyRef) (P : Reaction → Prop)
    `{∀ x, Decision (P x)} (xs : list Reaction) :
  (∀ p, OnLazy p ref ∉ xs) → ∀ p, OnLazy p ref ∉ filter P xs.
Proof. intros Hfree p [_ Hin]%list_elem_of_filter. by apply (Hfree p). Qed.

(** After the first render and a run of the reactions, the object holds
    what came of its import. *)
Lemma lazyInitializer_settled (specifier : string) (ref : LazyRef) (r : Realm) :
  deferred specifier ref r →
  untargeted ref r →
  let settled_realm := drain (snd (lazyInitializer ref r)) in
  lazyInitializer ref settled_realm
  = (match registry (loader r) specifier with
     | Fulfilled moduleObject => Rendered (default moduleObject)
     | Rejected e => Threw e
     | Unsettled => Suspended
     end, settled_realm)
  ∧ requested (loader settled_realm) = (requested (loader r) ++ [specifier])%list.
Proof.
  intros Hdef Hfree. cbv zeta.
  rewrite (lazyInitializer_first specifier ref r) by done. cbn [snd].
  destruct Hdef as (ctor & Hlook & _).
  assert (Href : (ref < length (lazies r))%nat)
    by (eapply lookup_lt_Some; exact Hlook).
  unfold drain, run_in_order, due. cbn [loader lazies reactions console]. rewrite !filter_app.
  set (p := registry (loader r) specifier).
  set (kept := filter (fun x => settled x = false) (reactions r)).
  set (due := filter (fun x => settled x = true) (reactions r)).
  assert (Hpending : ∀ rest,
            lazies (foldl (fun acc x => react x acc)
                      {| loader := {| registry := registry (loader r);
                                      requested := (requested (loader r) ++ [specifier])%list |};
                         lazies := <[ref := Pending p]> (lazies r);
                         reactions := rest; console := console r |} due) !! ref
            = Some (Pending p)).
  { intros rest. rewrite foldl_react_untargeted by by apply filter_untargeted.
    cbn [lazies]. by apply list_lookup_insert_eq. }
  destruct p as [m | e |] eqn:Hp; cbn [filter list_filter settled];
    repeat case_decide; try done; rewrite ?app_nil_r, ?foldl_snoc.
  - cbn [react]. rewrite Hpending. unfold lazyInitializer. cbn [lazies loader].
    rewrite list_lookup_insert_eq by (eapply lookup_lt_Some; apply Hpending).
    by rewrite foldl_react_loader.
  - cbn [react]. rewrite Hpending. unfold lazyInitializer. cbn [lazies loader].
    rewrite list_lookup_insert_eq by (eapply lookup_lt_Some; apply Hpending).
    by rewrite foldl_react_loader.
  - unfold lazyInitializer. rewrite Hpending. by rewrite foldl_react_loader.
Qed.

(** X9: a binding calls its thunk once and keeps what came of it.  Once
    the host has run the reactions after the first render, every further
    render gives the same outcome and leaves the realm as it is: the
    loaded component if the import was fulfilled, the same error again if
    it was rejected (so rendering again, as Retry does, requests nothing
    and cannot succeed), a suspension while it is still pending. *)
Theorem lazy_settles_once (specifier : string) (ref : LazyRef) (r : Realm) :
  deferred specifier ref r →
  untargeted ref r →
  let settled_realm := drain (snd (lazyInitializer ref r)) in
  lazyInitializer ref settled_realm
  = (match registry (loader r) specifier with
     | Fulfilled moduleObject => Rendered (default moduleObject)
     | Rejected e => Threw e
     | Unsettled => Suspended
     end, settled_realm)
  ∧ snd (lazyInitializer ref (snd (lazyInitializer ref settled_realm))) = settled_realm
  ∧ requested (loader settled_realm) = (requested (loader r) ++ [specifier])%list.
Proof.
  intros Hdef Hfree. cbv zeta.
  destruct (lazyInitializer_settled specifier ref r Hdef Hfree) as [Hagain Hreq].
  split; [exact Hagain|]. split; [|exact Hreq].
  rewrite Hagain. cbn [snd]. by rewrite Hagain.
Qed.

Lemma lazy_settles_once_witness :
  fst (lazyInitializer 3%nat
         (drain (snd (lazyInitializer 3%nat (snd (module_body (fresh broken_chunk)))))))
  = Threw (mkError "chunk load failed")
  ∧ requested (loader (drain (snd (lazyInitializer 3%nat
                                     (snd (module_body (fresh broken_chunk)))))))
    = ["./components/marketplace/Filters"].
Proof.
  assert (Hdef : deferred "./components/marketplace/Filters" 3%nat
                   (snd (module_body (fresh broken_chunk))))
    by (rewrite module_body_spec; eexists; split; [reflexivity | done]).
  assert (Hfree : untargeted 3%nat (snd (module_body (fresh broken_chunk))))
    by (rewrite module_body_spec; intros p Hin; by apply elem_of_nil in Hin).
  destruct (lazy_settles_once _ _ _ Hdef Hfree) as (Hagain & _ & Hreq).
  split; [by rewrite Hagain | exact Hreq].
Defined.

(** ** Preloading and the bindings *)

Lemma preloadComponent_import (specifier : string) (r : Realm) :
  preloadComponent (fun _ => dynamic_import specifier) r
  = (Normal tt,
     {| loader := {| registry := registry (loader r);
                     requested := (requested (loader r) ++ [specifier])%list |};
        lazies := lazies r;
        reactions := (reactions r
                      ++ [OnRejected (registry (loader r) specifier) console_error])%list;
        console := console r |}).
Proof. reflexivity. Qed.

(** X10: preloading the chunk of a binding does not initialise the
    binding: its thunk is still uncalled afterwards, and its first render
    suspends and calls [import] for the same specifier once more. *)
Theorem preload_leaves_binding_deferred (r : Realm) (name specifier : string) :
  (name, specifier) ∈ lazy_bindings →
  let loaded := snd (module_body r) in
  let preloaded := snd (preloadComponent (fun _ => dynamic_import specifier) loaded) in
  ∃ ref,
    export_named name (fst (module_body r)) = Some (LazyExport ref)
    ∧ lazies preloaded = lazies loaded
    ∧ deferred specifier ref preloaded
    ∧ fst (lazyInitializer ref preloaded) = Suspended
    ∧ requested (loader (snd (lazyInitializer ref preloaded)))
      = (requested (loader r) ++ [specifier; specifier])%list.
Proof.
  intros [i Hi]%list_elem_of_lookup. cbv zeta.
  rewrite preloadComponent_import, module_body_spec.
  cbn [fst snd loader lazies reactions console registry requested].
  destruct (binding_at (length (lazies r)) i _ _ Hi) as [Hexp Hpay].
  exists (length (lazies r) + i)%nat. split; [done|]. split; [done|].
  match goal with
  | |- deferred _ _ ?realm ∧ _ =>
      assert (Hdef : deferred specifier (length (lazies r) + i) realm)
        by (eexists; split; [cbn [lazies]; by rewrite lookup_app_plus | done])
  end.
  split; [exact Hdef|].
  rewrite (lazyInitializer_first specifier) by exact Hdef.
  cbn [fst snd loader requested]. split; [done|]. by rewrite <- app_assoc.
Qed.

Lemma preload_leaves_binding_deferred_witness :
  ∃ ref,
    export_named "LazyTransaction" (fst (module_body (fresh served_chunk)))
    = Some (LazyExport ref)
    ∧ fst (lazyInitializer ref
             (snd (preloadComponent
                     (fun _ => dynamic_import "./components/dashboard/Transaction")
                     (snd (module_body (fresh served_chunk))))))
      = Suspended.
Proof.
  assert (Hin : ("LazyTransaction", "./components/dashboard/Transaction") ∈ lazy_bindings)
    by (unfold lazy_bindings;
        repeat first [apply list_elem_of_here | apply list_elem_of_further]).
  destruct (preload_leaves_binding_deferred (fresh served_chunk) _ _ Hin)
    as (ref & Hexp & _ & _ & Hsusp & _).
  exists ref. split; [exact Hexp | exact Hsusp].
Defined.

Lemma preload_all_realm (specifiers : list string) (r : Realm) :
  preload_all specifiers r
  = {| loader := {| registry := registry (loader r);
                    requested := (requested (loader r) ++ specifiers)%list |};
       lazies := lazies r;
       reactions := (reactions r
                     ++ ((fun s => OnRejected (registry (loader r) s) console_error)
                           <$> specifiers))%list;
       console := console r |}.
Proof.
  unfold preload_all.
  induction specifiers as [|s specifiers IH] using rev_ind.
  - cbn. rewrite !app_nil_r. by destruct r as [[] ? ? ?].
  - rewrite foldl_snoc, preloadComponent_import, IH.
    cbn [snd loader registry requested lazies reactions console].
    by rewrite fmap_app, !app_assoc.
Qed.

Lemma reported_rejections (registry : string -> Promise) (specifiers : list string) :
  reported ((fun s => OnRejected (registry s) console_error) <$> specifiers)
  = rejections registry specifiers.
Proof.
  unfold reported, rejections.
  induction specifiers as [|s specifiers IH]; [done|].
  cbn [fmap list_fmap omap list_omap]. rewrite <- IH.
  by destruct (registry s).
Qed.

(** X11: preloading a list of chunks calls [import] for each, in the order
    of the list, and touches neither the bindings nor, at once, the
    console; when the promises have settled, in whatever order, every
    rejected import has been reported to [console.error] exactly once and
    nothing else has been added: the console holds what was due before and
    the reasons of the rejected imports, up to the order of the lines. *)
Theorem preload_all_reports_each_once (specifiers : list string) (r : Realm) :
  registry (loader (preload_all specifiers r)) = registry (loader r)
  ∧ requested (loader (preload_all specifiers r))
    = (requested (loader r) ++ specifiers)%list
  ∧ lazies (preload_all specifiers r) = lazies r
  ∧ console (preload_all specifiers r) = console r
  ∧ (∀ order,
       order ≡ₚ due (preload_all specifiers r) →
       console (run_in_order order (preload_all specifiers r))
       ≡ₚ (console (drain r) ++ rejections (registry (loader r)) specifiers)%list).
Proof.
  rewrite preload_all_realm. cbn [loader registry requested lazies console].
  repeat split; try done.
  intros order Horder.
  rewrite run_in_order_console, console_drain, (reported_Permutation _ _ Horder).
  cbn [console]. unfold due. cbn [reactions]. rewrite reported_due.
  rewrite <- reported_rejections. unfold reported.
  by rewrite omap_app, <- app_assoc.
Qed.

Lemma preload_all_reports_each_once_witness :
  console (run_in_order
             (reverse (due (preload_all ["./a"; "./b"] (fresh named_failures))))
             (preload_all ["./a"; "./b"] (fresh named_failures)))
  = [mkError "./b"; mkError "./a"]
  ∧ console (run_in_order
               (reverse (due (preload_all ["./a"; "./b"] (fresh named_failures))))
               (preload_all ["./a"; "./b"] (fresh named_failures)))
    ≡ₚ [mkError "./a"; mkError "./b"].
Proof.
  split; [reflexivity|].
  destruct (preload_all_reports_each_once ["./a"; "./b"] (fresh named_failures))
    as (_ & _ & _ & _ & Hany).
  exact (Hany _ (reverse_Permutation _)).
Defined.

(** ** A failed chunk behind the wrapper *)

(** X12: when the chunk of a binding failed to load, the wrapper with
    [errorBoundary] true shows the boundary's fallback; clicking Retry
    renders the binding again, which throws the stored error without
    requesting the chunk, so the fallback is shown again and the realm is
    unchanged.  With [errorBoundary] false or omitted the stored error
    leaves the wrapper at every render. *)
Theorem failed_chunk_cannot_be_retried {V : Type} (as_any : gmap string V -> AnyProps)
    (specifier : string) (ref : LazyRef) (r : Realm)
    (e : Error) (options : Options) (props : gmap string V) :
  deferred specifier ref r →
  untargeted ref r →
  registry (loader r) specifier = Rejected e →
  let settled_realm := drain (snd (lazyInitializer ref r)) in
  let Component := lazy_component as_any ref settled_realm in
  let inner := suspense_around Component (delete "key" props) (loadingFallback options) in
  mount (withSuspense Component options props)
  = (if or_default false (errorBoundary options) then mount error_ui else Threw e)
  ∧ rerender {| children := inner |} (ErrorBoundary.retry {| hasError := true |})
    = mount error_ui
  ∧ snd (lazyInitializer ref settled_realm) = settled_realm
  ∧ requested (loader settled_realm) = (requested (loader r) ++ [specifier])%list.
Proof.
  intros Hdef Hfree Hrej. cbv zeta.
  destruct (lazyInitializer_settled specifier ref r Hdef Hfree) as [Hagain Hreq].
  rewrite Hrej in Hagain.
  assert (Hthrows : lazy_component as_any ref (drain (snd (lazyInitializer ref r)))
                      (delete "key" props)
                    = Threw e)
    by (unfold lazy_component; by rewrite Hagain).
  split; [by apply mount_wrapper_threw|].
  split; [|split; [by rewrite Hagain | exact Hreq]].
  change (rerender ?p (ErrorBoundary.retry ?st)) with (mount (ErrorBoundary.element p)).
  rewrite mount_boundary. cbn [children].
  by rewrite mount_suspense_around, Hthrows.
Qed.

Lemma failed_chunk_cannot_be_retried_witness :
  mount (withSuspense
           (lazy_component number_props 3%nat
              (drain (snd (lazyInitializer 3%nat (snd (module_body (fresh broken_chunk)))))))
           with_boundary ∅)
  = mount error_ui.
Proof.
  assert (Hdef : deferred "./components/marketplace/Filters" 3%nat
                   (snd (module_body (fresh broken_chunk))))
    by (rewrite module_body_spec; eexists; split; [reflexivity | done]).
  assert (Hfree : untargeted 3%nat (snd (module_body (fresh broken_chunk))))
    by (rewrite module_body_spec; intros p Hin; by apply elem_of_nil in Hin).
  assert (Hrej : registry (loader (snd (module_body (fresh broken_chunk))))
                   "./components/marketplace/Filters"
                 = Rejected (mkError "chunk load failed"))
    by (rewrite module_body_spec; reflexivity).
  exact (proj1 (failed_chunk_cannot_be_retried number_props _ _ _ _ with_boundary ∅
                  Hdef Hfree Hrej)).
Defined.
